(** * radar-backend: the acquisition pipeline of the weather-radar service

    A shallow embedding of [server/scraper/radarScraper.js] (class
    [RadarScraper]) and [server/processor/radarProcessor.js] (class
    [RadarProcessor]), and the properties of the classifiers, the grid
    decoder, the fallback chain and the synthetic generators.

    Modelling conventions.
    - A JavaScript number is a [number]: NaN, the two infinities, or a finite
      value carried as a rational.  Every finite binary64 value is a rational,
      and [<], [<=], [>], [>=] compare exact values, so the comparisons of the
      source are modelled exactly.  The two zeros are identified.
    - Arithmetic rounds.  The rounding of binary64 is the function [rnd] of
      the [Runtime] class, known only to be monotone and to leave integers
      of magnitude up to 2^53 unchanged; exact arithmetic ([rnd] the
      identity) and round-to-nearest both satisfy this.  Overflow of a finite
      result to an infinity is not modelled.  Integer literals and the
      literals 0.5 and 1.5 denote themselves; every other decimal literal is
      rounded.
    - [Math.random], [Math.cos], [Math.sin], [Math.sqrt] and the clock belong
      to the [Runtime] too: [Math.random] draws from the environment and
      yields a value of [0,1), the cosine and the sine stay within [-1,1].
    - A call takes a bounded number of arguments, [max_arguments] of the
      [Runtime]: spreading a longer array into a call throws a RangeError.
    - [console] output is not modelled, except for the two spreads that
      [parseGRIB2File] evaluates for its log, which can throw. *)

From Stdlib Require Import ZArith QArith Qround List Sorted String Bool Lia Lqa.
From Equations Require Import Equations.
Import ListNotations.

Local Open Scope Q_scope.

(** ** JavaScript numbers *)

Inductive number : Type :=
| NaN
| NegInf
| Fin (q : Q)
| PosInf.

Coercion Fin : Q >-> number.

Module Num.

Definition Qlt_bool (a b : Q) : bool := negb (Qle_bool b a).

(** [x < y] *)
Definition lt (x y : number) : bool :=
  match x, y with
  | NaN, _ | _, NaN => false
  | _, NegInf => false
  | NegInf, _ => true
  | PosInf, _ => false
  | Fin _, PosInf => true
  | Fin a, Fin b => Qlt_bool a b
  end.

(** [x <= y] *)
Definition le (x y : number) : bool :=
  match x, y with
  | NaN, _ | _, NaN => false
  | NegInf, _ => true
  | _, PosInf => true
  | _, NegInf => false
  | PosInf, _ => false
  | Fin a, Fin b => Qle_bool a b
  end.

(** [x > y] and [x >= y] *)
Definition gt (x y : number) : bool := lt y x.
Definition ge (x y : number) : bool := le y x.

Definition isNaN (x : number) : bool :=
  match x with NaN => true | _ => false end.

Definition isFinite (x : number) : bool :=
  match x with Fin _ => true | _ => false end.

(** [Math.max(x, y)] and [Math.min(x, y)]: NaN if either argument is. *)
Definition max (x y : number) : number :=
  match x, y with
  | NaN, _ | _, NaN => NaN
  | _, _ => if lt x y then y else x
  end.

Definition min (x y : number) : number :=
  match x, y with
  | NaN, _ | _, NaN => NaN
  | _, _ => if lt y x then y else x
  end.

End Num.

(** ** Precipitation categories

    The string literals ['none'], ['light'], ['moderate'], ['heavy'] and
    ['extreme'] of both classes. *)

Inductive category : Type := none | light | moderate | heavy | extreme.

Definition category_index (p : category) : nat :=
  match p with
  | none => 0 | light => 1 | moderate => 2 | heavy => 3 | extreme => 4
  end.

Local Open Scope string_scope.

(** ** Values, points and the inputs of the scraper *)

(** An element of a decoded array, or the result of reading an object
    property: [null], [undefined] (a missing property, an index past the end
    of an array) or a number.  The arrays of a grid document hold numbers
    and [null]; strings, booleans and nested objects are not considered. *)
Inductive value : Type :=
| Null
| Undefined
| Num (x : number).

(** The point objects the scraper builds.  [coordinates] is the array
    [[lon, lat]]; [source] and [field] are set by the grid decoder only,
    [station] by the station-derived and the synthetic generators only. *)
Record point : Type := {
  coordinates : value * value;
  reflectivity : number;
  precipitation : category;
  color : string;
  source : option string;
  field : option string;
  station : option string;
  timestamp : string
}.

Definition longitude (p : point) : value := fst (coordinates p).
Definition latitude (p : point) : value := snd (coordinates p).

(** One field of the JSON document grib2json writes: each of the three
    arrays may be missing (or [null], which reads the same). *)
Record jsonField : Type := {
  json_values : option (list value);
  json_latitudes : option (list value);
  json_longitudes : option (list value)
}.

(** An entry of the document, as [Object.entries] yields it: [null], or an
    object.  An entry that is a number, a string or a boolean has none of
    the three properties and reads as an object without them. *)
Inductive jsonEntry : Type :=
| JsonNull
| JsonObject (fieldData : jsonField).

(** A field whose three arrays are present, as [convertGRIB2ToRadarPoints]
    receives it. *)
Record fieldData : Type := {
  values : list value;
  latitudes : list value;
  longitudes : list value
}.

(** The entries of [getRadarStations]. *)
Record radarStation : Type := {
  id : string;
  name : string;
  lat : Q;
  lon : Q
}.

(** A forecast document of the weather API, as far as
    [extractPrecipitationData] reads it: [properties?.periods] and, of each
    period, [probabilityOfPrecipitation?.value]. *)
Record forecastData : Type := {
  periods : option (list value)
}.

Inductive error : Type :=
| Error (message : string)
| ReferenceError (identifier : string)
| TypeError
| RangeError.

(** What a call gives its caller. *)
Inductive outcome (A : Type) : Type :=
| Returned (a : A)
| Thrown (e : error).
Arguments Returned {A} a.
Arguments Thrown {A} e.

(** ** The runtime

    What the program takes from its platform: the rounding of arithmetic,
    [Math], the clock, and the network and tools behind the three fetch
    strategies.  [Env] is the state of that outside world. *)

Class Runtime : Type := {
  Env : Type;

  rnd : Q -> Q;
  rnd_monotone : forall x y : Q, (x <= y)%Q -> (rnd x <= rnd y)%Q;
  rnd_integer : forall z : Z, (Z.abs z <= 2 ^ 53)%Z -> (rnd (inject_Z z) == inject_Z z)%Q;

  Math_random : Env -> Q * Env;
  Math_random_range :
    forall e, (0 <= fst (Math_random e))%Q /\ (fst (Math_random e) < 1)%Q;
  Math_cos : Q -> Q;
  Math_cos_range : forall x, (-1 <= Math_cos x)%Q /\ (Math_cos x <= 1)%Q;
  Math_sin : Q -> Q;
  Math_sin_range : forall x, (-1 <= Math_sin x)%Q /\ (Math_sin x <= 1)%Q;
  Math_sqrt : Q -> Q;

  (** [new Date().toISOString()] *)
  Date_toISOString : Env -> string;

  (** [axios.get] of the directory listing: the HTML of the response. *)
  axios_get_listing : Env -> outcome string * Env;
  (** The [href] targets that the four patterns of [parseMRMSDirectory]
      find in a listing, in the order they are pushed to [files]. *)
  listing_files : string -> list string;
  (** Download of a grid file, [zlib.gunzip], grib2json and [JSON.parse]:
      the entries of the parsed document. *)
  download_and_decode : string -> Env -> outcome (list (string * jsonEntry)) * Env;
  (** [fs.remove] of the downloaded file, after it was parsed. *)
  fs_remove : string -> Env -> outcome unit * Env;
  (** [axios.get] of the product list of the viewer. *)
  axios_get_products : Env -> outcome unit * Env;
  (** The two [axios.get] of [getStationRadarData]: the forecast document of
      a station. *)
  axios_get_forecast : radarStation -> Env -> outcome forecastData * Env;

  (** The number of arguments a call takes.  A spread of more elements into
      the arguments of a call, as in [Math.min(...values)] or
      [radarData.push(...radarPoints)], throws a [RangeError].  The limit is
      the engine's; it is assumed to be 1999 at least. *)
  max_arguments : Z;
  max_arguments_least : (1999 <= max_arguments)%Z
}.

(** ** Rounded arithmetic on finite numbers *)

Declare Scope js_scope.
Delimit Scope js_scope with js.

Section Arithmetic.
Context {RT : Runtime}.

Definition fadd (x y : Q) : Q := rnd (x + y).
Definition fsub (x y : Q) : Q := rnd (x - y).
Definition fmul (x y : Q) : Q := rnd (x * y).
Definition fdiv (x y : Q) : Q := rnd (x / y).

(** A decimal literal. *)
Definition literal (q : Q) : Q := rnd q.

(** [Math.PI], the binary64 value nearest to pi. *)
Definition Math_PI : Q := 884279719003555 # 281474976710656.

(** [Math.floor] *)
Definition Math_floor (x : Q) : Z := Qfloor x.

(** [Math.max(x, y)] on finite numbers *)
Definition Math_max (x y : Q) : Q := if Num.Qlt_bool x y then y else x.

(** [Math.pow(x, 2)] *)
Definition Math_pow2 (x : Q) : Q := fmul x x.

(** [parseFloat(x.toFixed(digits))]: [toFixed] prints the decimal with
    [digits] fractional digits nearest to [x], the larger in magnitude on
    a tie, and [parseFloat] rounds it to a number. *)
Definition toFixed (x : Q) (digits : nat) : Q :=
  let scale := inject_Z (10 ^ Z.of_nat digits) in
  if Num.Qlt_bool x 0
  then (- (inject_Z (Qfloor (- x * scale + (1 # 2))) / scale))%Q
  else (inject_Z (Qfloor (x * scale + (1 # 2))) / scale)%Q.

Definition parseFloat (decimal : Q) : Q := rnd decimal.

(** The sign of a number that is not NaN. *)
Definition sign (x : number) : Z :=
  match x with
  | NaN => 0
  | NegInf => -1
  | PosInf => 1
  | Fin q => match (q ?= 0)%Q with Lt => -1 | Eq => 0 | Gt => 1 end
  end.

(** [x * y] *)
Definition mul (x y : number) : number :=
  match x, y with
  | NaN, _ | _, NaN => NaN
  | Fin a, Fin b => Fin (fmul a b)
  | _, _ =>
      match (sign x * sign y)%Z with
      | Z0 => NaN
      | Zpos _ => PosInf
      | Zneg _ => NegInf
      end
  end.

(** [x + y] *)
Definition add (x y : number) : number :=
  match x, y with
  | NaN, _ | _, NaN => NaN
  | Fin a, Fin b => Fin (fadd a b)
  | PosInf, NegInf | NegInf, PosInf => NaN
  | PosInf, _ | _, PosInf => PosInf
  | NegInf, _ | _, NegInf => NegInf
  end.

End Arithmetic.

Infix "+." := fadd (at level 50, left associativity) : js_scope.
Infix "-." := fsub (at level 50, left associativity) : js_scope.
Infix "*." := fmul (at level 40, left associativity) : js_scope.
Infix "/." := fdiv (at level 40, left associativity) : js_scope.

(** ** Computations

    [State A] is a synchronous computation that draws from the environment
    and cannot throw.  [Exec R A] is a statement sequence inside an [async]
    function whose return type is [R]: it completes normally with an [A],
    returns from the function with an [R], or throws.  The world of an
    [Exec] also records which methods of the scraper were invoked, in
    order. *)

Inductive method : Type :=
| GetMRMSNcepData
| GetMRMSViewerData
| GetNWSRadarData
| GetEnhancedMockData.

Inductive completion (R A : Type) : Type :=
| Normal (a : A)
| Return (r : R)
| Throw (e : error).
Arguments Normal {R A} a.
Arguments Return {R A} r.
Arguments Throw {R A} e.

Section Computations.
Context {RT : Runtime}.

Definition State (A : Type) : Type := Env -> A * Env.

Definition ret {A} (a : A) : State A := fun e => (a, e).

Definition bind {A B} (c : State A) (k : A -> State B) : State B :=
  fun e => let (a, e') := c e in k a e'.

(** [for (let i = start; i < start + count; i++) acc = body(i, acc)] *)
Fixpoint for_range {A} (start count : nat) (body : nat -> A -> State A) (acc : A)
  : State A :=
  match count with
  | O => ret acc
  | S count' => bind (body start acc) (for_range (S start) count' body)
  end.

(** [items.forEach(item => { acc = body(item, acc) })] *)
Fixpoint forEach {X A} (items : list X) (body : X -> A -> State A) (acc : A)
  : State A :=
  match items with
  | [] => ret acc
  | item :: rest => bind (body item acc) (forEach rest body)
  end.

Record world : Type := {
  env : Env;
  invoked : list method
}.

Definition Exec (R A : Type) : Type := world -> completion R A * world.

Definition continue {R} : Exec R unit := fun w => (Normal tt, w).

Definition return_ {R A} (r : R) : Exec R A := fun w => (Return r, w).

Definition seq_ {R A B} (c : Exec R A) (k : A -> Exec R B) : Exec R B :=
  fun w =>
    match c w with
    | (Normal a, w') => k a w'
    | (Return r, w') => (Return r, w')
    | (Throw e, w') => (Throw e, w')
    end.

(** [try { body } catch (error) { handler }] *)
Definition try_catch {R A} (body : Exec R A) (handler : error -> Exec R A)
  : Exec R A :=
  fun w =>
    match body w with
    | (Throw e, w') => handler e w'
    | other => other
    end.

(** [this.m()] or [await this.m()], where the method [m] behaves as [f]. *)
Definition call {R A} (m : method) (f : Env -> outcome A * Env) : Exec R A :=
  fun w =>
    let (result, e') := f (env w) in
    let w' := {| env := e'; invoked := invoked w ++ [m] |} in
    match result with
    | Returned a => (Normal a, w')
    | Thrown err => (Throw err, w')
    end.

(** The body of a function, seen from its caller. *)
Definition function {R} (body : Exec R R) : world -> outcome R * world :=
  fun w =>
    match body w with
    | (Normal r, w') | (Return r, w') => (Returned r, w')
    | (Throw e, w') => (Thrown e, w')
    end.

(** A synchronous method that cannot throw, as an outcome. *)
Definition total {A} (c : State A) : Env -> outcome A * Env :=
  fun e => let (a, e') := c e in (Returned a, e').

End Computations.

Notation "x <- c ;; k" := (bind c (fun x => k))
  (at level 61, c at next level, right associativity) : js_scope.
Notation "x <~ c ;; k" := (seq_ c (fun x => k))
  (at level 61, c at next level, right associativity) : js_scope.
Notation "c ;;; k" := (seq_ c (fun _ => k))
  (at level 61, right associativity) : js_scope.

(** [s.includes(sub)] *)
Fixpoint includes (s sub : string) : bool :=
  if String.prefix sub s then true
  else match s with
       | EmptyString => false
       | String _ s' => includes s' sub
       end.

Local Open Scope js_scope.
Local Open Scope list_scope.

(** ** RadarScraper *)

Module Scraper.

(** *** The 3-bucket classifier *)

Definition classifyPrecipitation (reflectivity : number) : category :=
  if Num.lt reflectivity 20 then light
  else if Num.lt reflectivity 35 then moderate
  else if Num.lt reflectivity 45 then heavy
  else extreme.

Definition getColorForReflectivity (reflectivity : number) : string :=
  if Num.lt reflectivity 20 then "#00ff00"
  else if Num.lt reflectivity 35 then "#ffff00"
  else if Num.lt reflectivity 45 then "#ff8000"
  else "#ff0000".

Section Methods.
Context {RT : Runtime}.

(** *** The grid decoder *)

(** [Math.max(1, Math.floor(fieldData.values.length / 1000))]; the
    quotient of a length by 1000 and its floor are exact. *)
Definition sampleRate_of (fieldData : fieldData) : nat :=
  Nat.max 1 (List.length (values fieldData) / 1000).

(** One turn of the loop of [convertGRIB2ToRadarPoints], at index [i]:
    the array [radarPoints] after it. *)
Definition convert_step (now : Env) (fieldData : fieldData) (fieldName : string)
    (i : nat) (radarPoints : list point) : list point :=
  let value := nth i (values fieldData) Undefined in
  let lat := nth i (latitudes fieldData) Undefined in
  let lon := nth i (longitudes fieldData) Undefined in
  match value with
  | Null | Undefined => radarPoints
  | Num value =>
      if Num.isNaN value || Num.lt value 0 then radarPoints
      else
        let reflectivity :=
          if includes fieldName "BREF" || includes fieldName "REFL"
          then value
          else Num.max 0 (Num.min 70 (mul value 10)) in
        radarPoints ++
          [ {| coordinates := (lon, lat);
               reflectivity := reflectivity;
               precipitation := classifyPrecipitation reflectivity;
               color := getColorForReflectivity reflectivity;
               source := Some "MRMS_GRIB2";
               field := Some fieldName;
               station := None;
               timestamp := Date_toISOString now |} ]
  end.

(** [for (let i = ...; i < fieldData.values.length; i += sampleRate)] *)
Equations convert_loop (now : Env) (fieldData : fieldData) (fieldName : string)
    (i : nat) (radarPoints : list point) : list point
    by wf (List.length (values fieldData) - i)%nat lt :=
  convert_loop now fieldData fieldName i radarPoints
    with lt_dec i (List.length (values fieldData)) := {
    | left _ =>
        convert_loop now fieldData fieldName (i + sampleRate_of fieldData)
          (convert_step now fieldData fieldName i radarPoints);
    | right _ => radarPoints }.
Next Obligation.
  unfold sampleRate_of. lia.
Qed.

Definition convertGRIB2ToRadarPoints (now : Env) (fieldData : fieldData)
    (fieldName : string) : list point :=
  convert_loop now fieldData fieldName 0 [].

(** A call [f(...items)]: the elements of [items] become its arguments. *)
Definition spread {A} (items : list A) : outcome unit :=
  if (Z.of_nat (List.length items) <=? max_arguments)%Z then Returned tt
  else Thrown RangeError.

(** [array.push(...items)] *)
Definition push_spread {A} (array items : list A) : outcome (list A) :=
  match spread items with
  | Returned _ => Returned (array ++ items)
  | Thrown error => Thrown error
  end.

(** The loop of [parseGRIB2File] over the entries of the parsed
    document.  Reading [fieldData.values] of a [null] entry throws a
    [TypeError]; an entry that lacks one of the three arrays is skipped; the
    values of the others are spread into [Math.min] and [Math.max] for the
    log before the entry is decoded.  Nothing is caught inside the loop: a
    throw ends it, and what was extracted so far is lost. *)
Fixpoint extract_fields (now : Env) (data : list (string * jsonEntry))
    (radarPoints : list point) : outcome (list point) :=
  match data with
  | [] => Returned radarPoints
  | (fieldName, JsonNull) :: rest => Thrown TypeError
  | (fieldName, JsonObject fieldData) :: rest =>
      match json_values fieldData, json_latitudes fieldData,
            json_longitudes fieldData with
      | Some vs, Some lats, Some lons =>
          match spread vs with
          | Returned _ =>
              let points :=
                convertGRIB2ToRadarPoints now
                  {| values := vs; latitudes := lats; longitudes := lons |}
                  fieldName in
              match push_spread radarPoints points with
              | Returned radarPoints => extract_fields now rest radarPoints
              | Thrown error => Thrown error
              end
          | Thrown error => Thrown error
          end
      | _, _, _ => extract_fields now rest radarPoints
      end
  end.

(** *** The stations *)

Definition getRadarStations : list radarStation :=
  [ {| id := "KTLX"; name := "Oklahoma City"; lat := literal (353 # 10); lon := - literal (973 # 10) |};
    {| id := "KDFX"; name := "Laughlin AFB";  lat := literal (293 # 10); lon := - literal (1003 # 10) |};
    {| id := "KEWX"; name := "San Antonio";   lat := literal (297 # 10); lon := - 98 |};
    {| id := "KFWS"; name := "Fort Worth";    lat := literal (326 # 10); lon := - literal (973 # 10) |};
    {| id := "KGRK"; name := "Fort Hood";     lat := literal (312 # 10); lon := - literal (971 # 10) |};
    {| id := "KSHV"; name := "Shreveport";    lat := literal (324 # 10); lon := - literal (938 # 10) |};
    {| id := "KLZK"; name := "Little Rock";   lat := literal (348 # 10); lon := - literal (923 # 10) |};
    {| id := "KPOE"; name := "Fort Polk";     lat := literal (312 # 10); lon := - literal (932 # 10) |};
    {| id := "KLCH"; name := "Lake Charles";  lat := literal (301 # 10); lon := - literal (932 # 10) |};
    {| id := "KLIX"; name := "New Orleans";   lat := literal (303 # 10); lon := - literal (898 # 10) |} ].

Definition clock : State string := fun e => (Date_toISOString e, e).

(** *** Station-derived points *)

Definition extractPrecipitationData (forecastData : forecastData)
    (station : radarStation) : State (list point) :=
  match periods forecastData with
  | Some periods =>
      forEach (firstn 3 periods) (fun probabilityOfPrecipitation data =>
        match probabilityOfPrecipitation with
        | Num value =>
            if Num.gt value 0 then
              r <- Math_random ;;
              let numPoints := (Math_floor (r *. 10) + 5)%Z in
              for_range 0 (Z.to_nat numPoints) (fun i data =>
                let angle := Math_PI *. 2 *. inject_Z (Z.of_nat i) /. inject_Z numPoints in
                r <- Math_random ;;
                let radius := r *. 2 in
                let lat := lat station +. radius *. Math_cos angle in
                let lon := lon station +. radius *. Math_sin angle in
                let baseReflectivity := value in
                r <- Math_random ;;
                let reflectivity := add baseReflectivity (Fin (r *. 20)) in
                now <- clock ;;
                ret (data ++
                  [ {| coordinates := (Num lon, Num lat);
                       reflectivity := Num.min reflectivity 50;
                       precipitation := classifyPrecipitation reflectivity;
                       color := getColorForReflectivity reflectivity;
                       source := None;
                       field := None;
                       station := Some (id station);
                       timestamp := now |} ])) data
            else ret data
        | Null | Undefined => ret data
        end) []
  | None => ret []
  end.

(** *** The synthetic fallback *)

Definition generateThunderstormCell (mockData : list point)
    (station : radarStation) : State (list point) :=
  r <- Math_random ;;
  let numPoints := (Math_floor (r *. 8) + 5)%Z in
  r <- Math_random ;;
  let intensity := 30 +. r *. 20 in
  for_range 0 (Z.to_nat numPoints) (fun i mockData =>
    let angle := Math_PI *. 2 *. inject_Z (Z.of_nat i) /. inject_Z numPoints in
    r <- Math_random ;;
    let radius := r *. (3 # 2) in
    let lat := lat station +. radius *. Math_cos angle in
    let lon := lon station +. radius *. Math_sin angle in
    r <- Math_random ;;
    let reflectivity := intensity +. (r -. (1 # 2)) *. 10 in
    now <- clock ;;
    ret (mockData ++
      [ {| coordinates := (Num lon, Num lat);
           reflectivity := Num.max 20 (Num.min 50 reflectivity);
           precipitation := classifyPrecipitation reflectivity;
           color := getColorForReflectivity reflectivity;
           source := None;
           field := None;
           station := Some (id station);
           timestamp := now |} ])) mockData.

Definition generateWeatherFront (mockData : list point)
    (station : radarStation) : State (list point) :=
  r <- Math_random ;;
  let numPoints := (Math_floor (r *. 15) + 10)%Z in
  r <- Math_random ;;
  let direction := r *. Math_PI *. 2 in
  r <- Math_random ;;
  let length := 2 +. r *. 3 in
  for_range 0 (Z.to_nat numPoints) (fun i mockData =>
    let distance := inject_Z (Z.of_nat i) /. inject_Z numPoints *. length in
    let lat := lat station +. distance *. Math_cos direction in
    let lon := lon station +. distance *. Math_sin direction in
    r <- Math_random ;;
    let reflectivity := 25 +. r *. 15 in
    now <- clock ;;
    ret (mockData ++
      [ {| coordinates := (Num lon, Num lat);
           reflectivity := Num.max 20 (Num.min 40 reflectivity);
           precipitation := classifyPrecipitation reflectivity;
           color := getColorForReflectivity reflectivity;
           source := None;
           field := None;
           station := Some (id station);
           timestamp := now |} ])) mockData.

Definition generateScatteredShowers (mockData : list point)
    (station : radarStation) : State (list point) :=
  r <- Math_random ;;
  let numPoints := (Math_floor (r *. 12) + 8)%Z in
  for_range 0 (Z.to_nat numPoints) (fun i mockData =>
    r <- Math_random ;;
    let lat := lat station +. (r -. (1 # 2)) *. 4 in
    r <- Math_random ;;
    let lon := lon station +. (r -. (1 # 2)) *. 4 in
    r <- Math_random ;;
    let reflectivity := 15 +. r *. 20 in
    now <- clock ;;
    ret (mockData ++
      [ {| coordinates := (Num lon, Num lat);
           reflectivity := Num.max 10 (Num.min 35 reflectivity);
           precipitation := classifyPrecipitation reflectivity;
           color := getColorForReflectivity reflectivity;
           source := None;
           field := None;
           station := Some (id station);
           timestamp := now |} ])) mockData.

Definition getEnhancedMockData : State (list point) :=
  let stations := getRadarStations in
  forEach stations (fun station mockData =>
    systemType <- Math_random ;;
    if Num.Qlt_bool systemType (literal (3 # 10)) then
      generateThunderstormCell mockData station
    else if Num.Qlt_bool systemType (literal (6 # 10)) then
      generateWeatherFront mockData station
    else
      generateScatteredShowers mockData station) [].

(** *** The three fetch strategies *)

Definition downloadAndParseGRIB2 (filename : string)
  : Env -> outcome (list point) * Env :=
  fun e =>
    match download_and_decode filename e with
    | (Returned data, e1) =>
        match extract_fields e1 data [] with
        | Returned radarPoints =>
            match fs_remove filename e1 with
            | (Returned _, e2) => (Returned radarPoints, e2)
            | (Thrown error, e2) => (Thrown error, e2)
            end
        | Thrown error => (Thrown error, e1)
        end
    | (Thrown error, e1) => (Thrown error, e1)
    end.

Definition parseMRMSDirectory (htmlContent : string)
  : Env -> outcome (list point) * Env :=
  fun e =>
    let radarData := [] in
    let files := listing_files htmlContent in
    if (0 <? List.length files)%nat then
      let latestFile :=
        match find (fun f => includes f "latest") files with
        | Some f => f
        | None => nth 0 files ""
        end in
      match downloadAndParseGRIB2 latestFile e with
      | (Returned radarPoints, e') =>
          match push_spread radarData radarPoints with
          | Returned radarData => (Returned radarData, e')
          | Thrown _ => (Returned radarData, e')
          end
      | (Thrown _, e') => (Returned radarData, e')
      end
    else (Returned radarData, e).

Definition getMRMSNcepData : Env -> outcome (list point) * Env :=
  fun e =>
    match axios_get_listing e with
    | (Returned html, e') => parseMRMSDirectory html e'
    | (Thrown error, e') => (Thrown error, e')
    end.

Definition processMRMSProducts (products : unit) : list point :=
  let radarData := [] in
  radarData.

Definition getMRMSViewerData : Env -> outcome (list point) * Env :=
  fun e =>
    match axios_get_products e with
    | (Returned products, e') => (Returned (processMRMSProducts products), e')
    | (Thrown error, e') => (Thrown error, e')
    end.

(** Every failure is caught: the method returns [[]] then. *)
Definition getStationRadarData (station : radarStation) : State (list point) :=
  fun e =>
    match axios_get_forecast station e with
    | (Returned forecast, e') => extractPrecipitationData forecast station e'
    | (Thrown _, e') => ([], e')
    end.

Definition getNWSRadarData : Env -> outcome (list point) * Env :=
  total
    (let stations := getRadarStations in
     forEach (firstn 5 stations) (fun station radarData =>
       data <- getStationRadarData station ;;
       match push_spread radarData data with
       | Returned radarData => ret radarData
       | Thrown _ => ret radarData
       end) []).

(** *** The fallback chain *)

Section Chain.
(** The three fetch methods, as [getLatestRadarData] calls them. *)
Variables ncep viewer nws : Env -> outcome (list point) * Env.

Definition getLatestRadarData_body : Exec (list point) (list point) :=
  try_catch
    (try_catch
       (radarData <~ call GetMRMSNcepData ncep ;;
        if (0 <? List.length radarData)%nat then return_ radarData else continue)
       (fun error => continue) ;;;
     try_catch
       (radarData <~ call GetMRMSViewerData viewer ;;
        if (0 <? List.length radarData)%nat then return_ radarData else continue)
       (fun error => continue) ;;;
     try_catch
       (radarData <~ call GetNWSRadarData nws ;;
        if (0 <? List.length radarData)%nat then return_ radarData else continue)
       (fun error => continue) ;;;
     mockData <~ call GetEnhancedMockData (total getEnhancedMockData) ;;
     return_ mockData)
    (fun error =>
       mockData <~ call GetEnhancedMockData (total getEnhancedMockData) ;;
       return_ mockData).

Definition getLatestRadarData_with : world -> outcome (list point) * world :=
  function getLatestRadarData_body.
End Chain.

Definition getLatestRadarData : world -> outcome (list point) * world :=
  getLatestRadarData_with getMRMSNcepData getMRMSViewerData getNWSRadarData.

End Methods.

End Scraper.

(** ** RadarProcessor *)

Module Processor.

(** *** The 5-bucket classifier *)

Definition reflectivityToPrecipitation (reflectivity : number) : category :=
  if Num.lt reflectivity 10 then none
  else if Num.lt reflectivity 20 then light
  else if Num.lt reflectivity 30 then moderate
  else if Num.lt reflectivity 40 then heavy
  else extreme.

Definition getColorForReflectivity (reflectivity : number) : string :=
  if Num.lt reflectivity 10 then "#ffffff"
  else if Num.lt reflectivity 20 then "#00ff00"
  else if Num.lt reflectivity 30 then "#ffff00"
  else if Num.lt reflectivity 40 then "#ff8000"
  else if Num.lt reflectivity 50 then "#ff0000"
  else "#800080".

(** The published breakpoint table of the specification, one row per
    bucket: the test of the row (lower bound inclusive, upper bound
    exclusive) and the category and color it prescribes. *)
Definition breakpoint_table : list ((number -> bool) * (category * string)) :=
  [ (fun r => Num.lt r 10,                     (none,     "#ffffff"));
    (fun r => Num.ge r 10 && Num.lt r 20,      (light,    "#00ff00"));
    (fun r => Num.ge r 20 && Num.lt r 30,      (moderate, "#ffff00"));
    (fun r => Num.ge r 30 && Num.lt r 40,      (heavy,    "#ff8000"));
    (fun r => Num.ge r 40 && Num.lt r 50,      (extreme,  "#ff0000"));
    (fun r => Num.ge r 50,                     (extreme,  "#800080")) ].

(** The rows of the table that apply to a reflectivity. *)
Definition rows_for (r : number) : list (category * string) :=
  map snd (filter (fun row => fst row r) breakpoint_table).

(** *** The regional-systems generator *)

Record weatherSystem : Type := {
  centerLat : Q;
  centerLon : Q;
  intensity : Q;
  size : Q
}.

Record radarPoint : Type := {
  lat : Q;
  lon : Q;
  reflectivity : Q;
  precipitation : category
}.

Record Geometry : Type := { geometry_type : string; coordinates : Q * Q }.
Record Properties : Type := {
  properties_reflectivity : Q;
  properties_precipitation : category;
  properties_color : string
}.
Record Feature : Type := {
  feature_type : string;
  geometry : Geometry;
  properties : Properties
}.

(** What an identifier of [radarProcessor.js] is bound to. *)
Inductive binding : Type :=
| RadarPointsArray
| WeatherSystemsArray
| FsModule
| PathModule
| RadarProcessorClass.

Record Bounds : Type := {
  minLat : binding;
  maxLat : binding;
  minLon : binding;
  maxLon : binding
}.
Record Metadata : Type := {
  timestamp : string;
  totalPoints : nat;
  bounds : Bounds
}.
Record FeatureCollection : Type := {
  type : string;
  features : list Feature;
  metadata : Metadata
}.

(** The identifiers in scope where [createMockRadarData] builds its
    result: its two locals, then the declarations of the module.  The
    globals of Node are left out; none of them is looked up below. *)
Definition scope : list (string * binding) :=
  [ ("radarPoints", RadarPointsArray);
    ("weatherSystems", WeatherSystemsArray);
    ("fs", FsModule);
    ("path", PathModule);
    ("RadarProcessor", RadarProcessorClass) ].

(** Evaluation of an identifier. *)
Definition resolve (identifier : string) : outcome binding :=
  match find (fun entry => String.eqb (fst entry) identifier) scope with
  | Some (_, b) => Returned b
  | None => Thrown (ReferenceError identifier)
  end.

Section Methods.
Context {RT : Runtime}.

Definition generateWeatherSystems : State (list weatherSystem) :=
  r <- Math_random ;;
  let numSystems := (Math_floor (r *. 4) + 3)%Z in
  for_range 0 (Z.to_nat numSystems) (fun i systems =>
    r <- Math_random ;;
    let centerLat := 25 +. r *. 20 in
    r <- Math_random ;;
    let centerLon := (- 120) +. r *. 50 in
    r <- Math_random ;;
    let intensity := 20 +. r *. 30 in
    r <- Math_random ;;
    let size := 3 +. r *. 8 in
    ret (systems ++
      [ {| centerLat := centerLat;
           centerLon := centerLon;
           intensity := intensity;
           size := size |} ])) [].

(** The points around one weather system: the body of
    [weatherSystems.forEach] in [createMockRadarData]. *)
Definition system_points (system : weatherSystem) (radarPoints : list radarPoint)
  : State (list radarPoint) :=
  let centerLat := centerLat system in
  let centerLon := centerLon system in
  let intensity := intensity system in
  let size := size system in
  let numPoints := Math_floor (size *. 50) in
  for_range 0 (Z.to_nat numPoints) (fun i radarPoints =>
    patternType <- Math_random ;;
    position <-
      (if Num.Qlt_bool patternType (literal (3 # 10)) then
         let angle := Math_PI *. 2 *. inject_Z (Z.of_nat i) /. inject_Z numPoints in
         r <- Math_random ;;
         let radius := r *. size *. 2 in
         ret (centerLat +. radius *. Math_cos angle,
              centerLon +. radius *. Math_sin angle)
       else if Num.Qlt_bool patternType (literal (6 # 10)) then
         r <- Math_random ;;
         let lat := centerLat +. (r -. (1 # 2)) *. size *. 4 in
         r <- Math_random ;;
         let lon := centerLon +. (r -. (1 # 2)) *. size *. 4 in
         ret (lat, lon)
       else
         r <- Math_random ;;
         let direction := r *. Math_PI *. 2 in
         r <- Math_random ;;
         let distance := r *. size *. 3 in
         ret (centerLat +. distance *. Math_cos direction,
              centerLon +. distance *. Math_sin direction)) ;;
    let '(lat, lon) := position in
    r <- Math_random ;;
    let randomLat := lat +. (r -. (1 # 2)) *. 5 in
    r <- Math_random ;;
    let randomLon := lon +. (r -. (1 # 2)) *. 5 in
    let distanceFromCenter :=
      Math_sqrt (Math_pow2 (randomLat -. centerLat)
                 +. Math_pow2 (randomLon -. centerLon)) in
    let baseReflectivity := intensity *. (1 -. distanceFromCenter /. size) in
    r <- Math_random ;;
    let reflectivity := Math_max 5 (baseReflectivity +. (r -. (1 # 2)) *. 10) in
    if Num.Qlt_bool 10 reflectivity
       && Qle_bool 24 randomLat && Qle_bool randomLat 49
       && Qle_bool (- 125) randomLon && Qle_bool randomLon (- 66)
    then
      ret (radarPoints ++
        [ {| lat := parseFloat (toFixed randomLat 3);
             lon := parseFloat (toFixed randomLon 3);
             reflectivity := parseFloat (toFixed reflectivity 1);
             precipitation := reflectivityToPrecipitation (Fin reflectivity) |} ])
    else ret radarPoints) radarPoints.

(** The array [radarPoints] that [createMockRadarData] fills before it
    builds its result. *)
Definition createMockRadarData_points : State (list radarPoint) :=
  weatherSystems <- generateWeatherSystems ;;
  forEach weatherSystems system_points [].

Definition createMockRadarData : Env -> outcome FeatureCollection * Env :=
  fun e =>
    let (radarPoints, e1) := createMockRadarData_points e in
    let features :=
      map (fun point =>
             {| feature_type := "Feature";
                geometry := {| geometry_type := "Point";
                               coordinates := (lon point, lat point) |};
                properties :=
                  {| properties_reflectivity := reflectivity point;
                     properties_precipitation := precipitation point;
                     properties_color :=
                       getColorForReflectivity (Fin (reflectivity point)) |} |})
          radarPoints in
    let timestamp := Date_toISOString e1 in
    match resolve "minLat" with
    | Thrown error => (Thrown error, e1)
    | Returned minLat =>
    match resolve "maxLat" with
    | Thrown error => (Thrown error, e1)
    | Returned maxLat =>
    match resolve "minLon" with
    | Thrown error => (Thrown error, e1)
    | Returned minLon =>
    match resolve "maxLon" with
    | Thrown error => (Thrown error, e1)
    | Returned maxLon =>
        (Returned
           {| type := "FeatureCollection";
              features := features;
              metadata :=
                {| timestamp := timestamp;
                   totalPoints := List.length radarPoints;
                   bounds := {| minLat := minLat; maxLat := maxLat;
                                minLon := minLon; maxLon := maxLon |} |} |},
         e1)
    end end end end.

(** [convertCoordinates(x, y, projection)]: the object [{ lat, lon }] as the
    pair of its latitude and its longitude. *)
Definition convertCoordinates (x y : Q) (projection : string) : Q * Q :=
  let lat := 40 +. (y -. 1000) *. literal (1 # 100) in
  let lon := (- 100) +. (x -. 1000) *. literal (1 # 100) in
  (lat, lon).

Section Files.
(** [fs.writeJson] into the directory of processed data, under a name made
    from the clock. *)
Variable fs_writeJson : FeatureCollection -> Env -> outcome unit * Env.

Definition processRadarData (filePath : string)
  : Env -> outcome FeatureCollection * Env :=
  fun e =>
    match createMockRadarData e with
    | (Returned mockRadarData, e1) =>
        match fs_writeJson mockRadarData e1 with
        | (Returned _, e2) => (Returned mockRadarData, e2)
        | (Thrown error, e2) => (Thrown error, e2)
        end
    | (Thrown error, e1) => (Thrown error, e1)
    end.
End Files.

End Methods.

End Processor.

(** ** The server: the update cycle of [index.js] *)

(** The properties of a point that a row copies; the rows have fields of the
    same names. *)
Definition point_reflectivity (p : point) : number := reflectivity p.
Definition point_precipitation (p : point) : category := precipitation p.
Definition point_color (p : point) : string := color p.

Module Server.

(** A row of [radar_data], as [updateRadarData] hands it to the database. *)
Record row : Type := {
  lat : value;
  lon : value;
  reflectivity : number;
  precipitation : category;
  color : string
}.

(** The bounds object of a metadata record. *)
Record bounds : Type := {
  minLat : Q;
  maxLat : Q;
  minLon : Q;
  maxLon : Q
}.

(** The calls made to the database module. *)
Inductive db_call : Type :=
| StoreRadarData (timestamp : string) (radarPoints : list row)
| StoreRadarMetadata (timestamp : string) (sourceFile : string)
    (totalPoints : nat) (bounds : bounds).

Section Update.
Context {RT : Runtime}.

(** [database.storeRadarData] and [database.storeRadarMetadata]: whether
    the write succeeds is up to the database. *)
Variable storeRadarData : string -> list row -> Env -> outcome unit * Env.
Variable storeRadarMetadata :
  string -> string -> nat -> bounds -> Env -> outcome unit * Env.

(** The state of the server: the world of the scraper and the calls made
    to the database so far. *)
Record server : Type := {
  scraper : world;
  db_calls : list db_call
}.

(** [updateRadarData()]: it returns nothing; every error is caught and
    logged. *)
Definition updateRadarData (s : server) : server :=
  match Scraper.getLatestRadarData (scraper s) with
  | (Returned radarData, w) =>
      if (List.length radarData =? 0)%nat then
        {| scraper := w; db_calls := db_calls s |}
      else
        let timestamp := Date_toISOString (env w) in
        let radarPoints :=
          map (fun point : point =>
                 {| lat := snd (coordinates point);
                    lon := fst (coordinates point);
                    reflectivity := point_reflectivity point;
                    precipitation := point_precipitation point;
                    color := point_color point |})
              radarData in
        let stored := db_calls s ++ [StoreRadarData timestamp radarPoints] in
        match storeRadarData timestamp radarPoints (env w) with
        | (Returned _, e1) =>
            let described :=
              stored ++
              [ StoreRadarMetadata timestamp "MRMS_Data" (List.length radarData)
                  {| minLat := 24; maxLat := 49; minLon := - 125; maxLon := - 66 |} ] in
            match storeRadarMetadata timestamp "MRMS_Data" (List.length radarData)
                    {| minLat := 24; maxLat := 49; minLon := - 125; maxLon := - 66 |}
                    e1 with
            | (_, e2) =>
                {| scraper := {| env := e2; invoked := invoked w |};
                   db_calls := described |}
            end
        | (Thrown _, e1) =>
            {| scraper := {| env := e1; invoked := invoked w |};
               db_calls := stored |}
        end
  | (Thrown _, w) => {| scraper := w; db_calls := db_calls s |}
  end.

End Update.

End Server.

(** ** A simulated runtime

    A runtime for concrete runs.  Arithmetic is exact.  The environment holds
    the values [Math.random] will yield, in order (0 once they are used up),
    and the parsed grid document the primary source serves, if it is
    reachable.  The viewer and the weather API are unreachable.  The cosine
    and the sine are clipped Taylor polynomials, the square root is taken to
    three decimals.  A call takes 65535 arguments. *)

Module Simulation.

Record sim : Type := {
  tape : list Q;
  grid : option (list (string * jsonEntry))
}.

Definition clip (x : Q) : Q :=
  if Num.Qlt_bool x (- 1) then - 1 else if Num.Qlt_bool 1 x then 1 else x.

Definition random (e : sim) : Q * sim :=
  match tape e with
  | [] => (0, e)
  | r :: rest =>
      (if Qle_bool 0 r && Num.Qlt_bool r 1 then r else 0,
       {| tape := rest; grid := grid e |})
  end.

Definition unreachable : error := Error "connect ECONNREFUSED".

Definition latest_file : string := "MRMS_BREF_1HR_MAX.latest.grib2.gz".

#[local] Obligation Tactic := idtac.

#[export] Program Instance runtime : Runtime := {|
  Env := sim;
  rnd := fun x => x;
  Math_random := random;
  Math_cos := fun x => clip (1 - x * x / 2);
  Math_sin := fun x => clip (x - x * x * x / 6);
  Math_sqrt := fun x => inject_Z (Z.sqrt (Qfloor (x * 1000000))) / 1000;
  Date_toISOString := fun _ => "2025-01-01T00:00:00.000Z";
  axios_get_listing := fun e =>
    match grid e with
    | Some _ => (Returned latest_file, e)
    | None => (Thrown unreachable, e)
    end;
  listing_files := fun html => if includes html ".grib2.gz" then [html] else [];
  download_and_decode := fun _ e =>
    match grid e with
    | Some data => (Returned data, e)
    | None => (Thrown unreachable, e)
    end;
  fs_remove := fun _ e => (Returned tt, e);
  axios_get_products := fun e => (Thrown unreachable, e);
  axios_get_forecast := fun _ e => (Thrown unreachable, e);
  max_arguments := 65535
|}.
Next Obligation. intros x y H. exact H. Qed.
Next Obligation. intros z _. reflexivity. Qed.
Next Obligation.
  intros e. unfold random. destruct (tape e) as [|r rest]; simpl.
  - split; [apply Qle_refl | reflexivity].
  - destruct (Qle_bool 0 r) eqn:H0; simpl.
    + destruct (Num.Qlt_bool r 1) eqn:H1.
      * split; [now apply Qle_bool_iff |].
        unfold Num.Qlt_bool in H1. apply negb_true_iff in H1.
        apply Qnot_le_lt. intros H. apply Qle_bool_iff in H. congruence.
      * split; [apply Qle_refl | reflexivity].
    + split; [apply Qle_refl | reflexivity].
Qed.
Next Obligation.
  intros x. unfold clip.
  destruct (Num.Qlt_bool (1 - x * x / 2) (- 1)) eqn:H1.
  - split; [apply Qle_refl | discriminate].
  - destruct (Num.Qlt_bool 1 (1 - x * x / 2)) eqn:H2.
    + split; [discriminate | apply Qle_refl].
    + unfold Num.Qlt_bool in H1, H2. apply negb_false_iff in H1, H2.
      split; now apply Qle_bool_iff.
Qed.
Next Obligation.
  intros x. unfold clip.
  destruct (Num.Qlt_bool (x - x * x * x / 6) (- 1)) eqn:H1.
  - split; [apply Qle_refl | discriminate].
  - destruct (Num.Qlt_bool 1 (x - x * x * x / 6)) eqn:H2.
    + split; [discriminate | apply Qle_refl].
    + unfold Num.Qlt_bool in H1, H2. apply negb_false_iff in H1, H2.
      split; now apply Qle_bool_iff.
Qed.
Next Obligation. apply Z.leb_le. reflexivity. Qed.

End Simulation.

(** ** Predicates of the statements *)

(** The continental bounding box. *)
Definition in_box (latitude longitude : Q) : Prop :=
  (24 <= latitude)%Q /\ (latitude <= 49)%Q /\
  (- 125 <= longitude)%Q /\ (longitude <= - 66)%Q.

(** A point of the scraper whose two coordinates are finite numbers inside
    the box. *)
Definition point_in_box (p : point) : Prop :=
  exists la lo : Q,
    coordinates p = (Num (Fin lo), Num (Fin la)) /\ in_box la lo.

(** A point whose category and color are those the 3-bucket classifier
    gives one and the same number. *)
Definition classified (p : point) : Prop :=
  exists x : number,
    precipitation p = Scraper.classifyPrecipitation x /\
    color p = Scraper.getColorForReflectivity x.

(** A point labeled as precipitating. *)
Definition precipitating (p : point) : Prop :=
  precipitation p <> none /\ color p <> "#ffffff".

(** The breakpoints of the 3-bucket classifier, as a table. *)
Definition scraper_table : list ((number -> bool) * (category * string)) :=
  [ (fun r => Num.lt r 20,                     (light,    "#00ff00"));
    (fun r => Num.ge r 20 && Num.lt r 35,      (moderate, "#ffff00"));
    (fun r => Num.ge r 35 && Num.lt r 45,      (heavy,    "#ff8000"));
    (fun r => Num.ge r 45,                     (extreme,  "#ff0000")) ].

(** ** The samples of the decoder *)

(** The quotient of [n] by [d], rounded up. *)
Definition ceil_div (n d : nat) : nat := (n + d - 1) / d.

(** The indices 0, stride, 2 stride, ... below [n]. *)
Definition sampled_indices (n stride : nat) : list nat :=
  map (fun k => (k * stride)%nat) (seq 0 (ceil_div n stride)).

(** An optional element as a list. *)
Definition kept {A} (o : option A) : list A :=
  match o with Some a => [a] | None => [] end.

(** A value the decoder drops: [null], [undefined], NaN or a negative
    number. *)
Definition skipped (v : value) : bool :=
  match v with
  | Null | Undefined => true
  | Num x => Num.isNaN x || Num.lt x 0
  end.

Section DecoderSpec.
Context {RT : Runtime}.

(** The point that the loop of the decoder pushes at index [i], if it
    pushes one. *)
Definition decoded_at (now : Env) (fd : fieldData) (fieldName : string) (i : nat)
  : option point :=
  hd_error (Scraper.convert_step now fd fieldName i []).
End DecoderSpec.

(** The field of the end-to-end scenario of the specification, with
    coordinates of our choosing. *)
Definition scenario_values : list value :=
  [Num 5; Num 15; Num 25; Num (Fin (- 1)); Num NaN].

Definition scenario_field : fieldData :=
  {| values := scenario_values;
     latitudes := [Num 30; Num 31; Num 32; Num 33; Num 34];
     longitudes := [Num (Fin (- 100)); Num (Fin (- 99)); Num (Fin (- 98));
                    Num (Fin (- 97)); Num (Fin (- 96))] |}.

(** An environment in which no source is reachable. *)
Definition offline : @Env Simulation.runtime :=
  {| Simulation.tape := []; Simulation.grid := None |}.

(** A point as the decoder builds it. *)
Definition decoded_point {RT : Runtime} (now : Env) (fieldName : string)
    (lon lat : value) (reflectivity : number) (precipitation : category)
    (color : string) : point :=
  {| coordinates := (lon, lat);
     reflectivity := reflectivity;
     precipitation := precipitation;
     color := color;
     source := Some "MRMS_GRIB2";
     field := Some fieldName;
     station := None;
     timestamp := Date_toISOString now |}.

(** ** Synthetic and station-derived points *)

(** A point of the synthetic fallback or of the station-derived strategy:
    inside the box, classified by the 3-bucket classifier, with a [station]
    property and without a [source] property. *)
Definition station_point (p : point) : Prop :=
  point_in_box p /\ classified p /\ source p = None /\ station p <> None.

(** Where the stations are, to the degree. *)
Definition station_in_range (s : radarStation) : Prop :=
  (29 <= lat s)%Q /\ (lat s <= 36)%Q /\ (- 101 <= lon s)%Q /\ (lon s <= - 89)%Q.

(** An integer that every rounding leaves unchanged. *)
Definition small (z : Z) : Prop := (Z.abs z <= 2 ^ 53)%Z.

(** A point of the regional generator inside the box. *)
Definition radarPoint_in_box (p : Processor.radarPoint) : Prop :=
  in_box (Processor.lat p) (Processor.lon p).

(** ** The fallback chain of the specification *)

Section PipelineSpec.
Context {RT : Runtime}.

(** The world after method [m] ran and left the environment [e]. *)
Definition after (w : world) (m : method) (e : Env) : world :=
  {| env := e; invoked := invoked w ++ [m] |}.

(** The state machine of the specification: the strategies are tried in
    order; a strategy that throws or returns an empty sequence passes on
    to the next one, a non-empty result ends the chain and is returned;
    after the last strategy comes the synthetic generator. *)
Fixpoint AcquisitionPipeline_spec
    (strategies : list (method * (Env -> outcome (list point) * Env)))
    (w : world) : outcome (list point) * world :=
  match strategies with
  | [] =>
      let (mockData, e') := Scraper.getEnhancedMockData (env w) in
      (Returned mockData, after w GetEnhancedMockData e')
  | (m, fetch) :: rest =>
      match fetch (env w) with
      | (Returned (p :: points), e') => (Returned (p :: points), after w m e')
      | (Returned [], e') | (Thrown _, e') =>
          AcquisitionPipeline_spec rest (after w m e')
      end
  end.
End PipelineSpec.

(** ** Inputs of the examples *)

(** A grid with one sample at 55 N, 130 W, the north-west corner of the
    continental MRMS grid. *)
Definition corner_grid : list (string * jsonEntry) :=
  [ ("BREF_1HR_MAX",
     JsonObject
       {| json_values := Some [Num 30];
          json_latitudes := Some [Num 55];
          json_longitudes := Some [Num (Fin (- 130))] |}) ].

(** An environment in which the primary source serves a document. *)

Definition serving (data : list (string * jsonEntry)) : @Env Simulation.runtime :=
  {| Simulation.tape := []; Simulation.grid := Some data |}.

(** The document of the end-to-end scenario. *)
Definition scenario_grid : list (string * jsonEntry) :=
  [ ("BREF_1HR_MAX",
     JsonObject
       {| json_values := Some (values scenario_field);
          json_latitudes := Some (latitudes scenario_field);
          json_longitudes := Some (longitudes scenario_field) |}) ].

(** A field with one sample, whose latitude is [null]. *)
Definition unlocated_field : fieldData :=
  {| values := [Num 15]; latitudes := [Null]; longitudes := [Num (Fin (- 100))] |}.

(** A field with one sample, read as [Infinity]. *)
Definition saturated_field : fieldData :=
  {| values := [Num PosInf]; latitudes := [Num 30]; longitudes := [Num (Fin (- 100))] |}.

Definition finite_value (v : value) : Prop :=
  match v with
  | Num (Fin _) => True
  | _ => False
  end.

(** A point whose latitude, longitude and reflectivity are finite. *)
Definition finite_point (p : point) : Prop :=
  finite_value (latitude p) /\ finite_value (longitude p) /\
  Num.isFinite (reflectivity p) = true.

(** The world in which a run starts. *)
Definition start {RT : Runtime} (e : Env) : world := {| env := e; invoked := [] |}.

(** A fetch strategy that throws. *)
Definition failing {RT : Runtime} : Env -> outcome (list point) * Env :=
  fun e => (Thrown (Error "Network Error"), e).

Definition self_classified (p : point) : Prop :=
  precipitation p = Scraper.classifyPrecipitation (reflectivity p) /\
  color p = Scraper.getColorForReflectivity (reflectivity p).

Definition reflectivity_within (lo hi : Q) (p : point) : Prop :=
  exists x : Q, reflectivity p = Fin x /\ lo <= x /\ x <= hi.

(** A point of the synthetic fallback made for station [s]. *)
Definition synthetic_for (s : radarStation) (p : point) : Prop :=
  station p = Some (id s) /\ source p = None /\ field p = None /\
  self_classified p /\ reflectivity_within 10 50 p.

(** A forecast period whose probability of precipitation is above 0. *)
Definition rainy (probability : value) : bool :=
  match probability with
  | Num x => Num.gt x 0
  | Null | Undefined => false
  end.

(** A point derived from the forecast of station [s]. *)
Definition derived_for (s : radarStation) (p : point) : Prop :=
  station p = Some (id s) /\ source p = None /\ field p = None /\
  self_classified p /\
  Num.le 0 (reflectivity p) = true /\ Num.le (reflectivity p) 50 = true.

(** A point as the grid decoder tags it. *)
Definition decoded_tagged (p : point) : Prop :=
  source p = Some "MRMS_GRIB2" /\ station p = None /\
  (exists fieldName, field p = Some fieldName) /\ self_classified p.

(** The three arrays of an entry that has them all. *)
Definition entry_arrays (entry : jsonEntry) : option fieldData :=
  match entry with
  | JsonNull => None
  | JsonObject fieldData =>
      match json_values fieldData, json_latitudes fieldData,
            json_longitudes fieldData with
      | Some vs, Some lats, Some lons =>
          Some {| values := vs; latitudes := lats; longitudes := lons |}
      | _, _, _ => None
      end
  end.

(** What one entry of a grid document contributes: the points decoded from
    its arrays, if it has the three. *)
Definition field_points {RT : Runtime} (now : Env) (entry : string * jsonEntry)
  : list point :=
  match entry_arrays (snd entry) with
  | Some fieldData => Scraper.convertGRIB2ToRadarPoints now fieldData (fst entry)
  | None => []
  end.

(** The error an entry of a grid document raises: a [TypeError] if it is
    [null], a [RangeError] if it has the three arrays and more values than
    a call takes arguments. *)
Definition entry_error {RT : Runtime} (entry : string * jsonEntry) : option error :=
  match snd entry with
  | JsonNull => Some TypeError
  | JsonObject _ =>
      match entry_arrays (snd entry) with
      | Some fieldData =>
          if (max_arguments <? Z.of_nat (List.length (values fieldData)))%Z
          then Some RangeError
          else None
      | None => None
      end
  end.

(** The error of the first entry of a document that raises one. *)
Fixpoint first_error {RT : Runtime} (data : list (string * jsonEntry))
  : option error :=
  match data with
  | [] => None
  | entry :: rest =>
      match entry_error entry with
      | Some error => Some error
      | None => first_error rest
      end
  end.

(** A point derived from the forecast of one of the first five stations. *)
Definition derived_point {RT : Runtime} (p : point) : Prop :=
  exists s, In s (firstn 5 Scraper.getRadarStations) /\ derived_for s p.

(** A point of the synthetic fallback. *)
Definition synthetic_point {RT : Runtime} (p : point) : Prop :=
  exists s, In s Scraper.getRadarStations /\ synthetic_for s p.

(** A weather system within the ranges [generateWeatherSystems] draws
    from. *)
Definition system_in_range (system : Processor.weatherSystem) : Prop :=
  25 <= Processor.centerLat system /\ Processor.centerLat system <= 45 /\
  - 120 <= Processor.centerLon system /\ Processor.centerLon system <= - 70 /\
  20 <= Processor.intensity system /\ Processor.intensity system <= 50 /\
  3 <= Processor.size system /\ Processor.size system <= 11.

(** A point of the regional generator that shows precipitation. *)
Definition significant (p : Processor.radarPoint) : Prop :=
  10 <= Processor.reflectivity p /\
  Processor.precipitation p <> none /\
  Processor.getColorForReflectivity (Fin (Processor.reflectivity p)) <> "#ffffff".

(** The fields of a stored row, and of a point, side by side. *)
Definition row_fields (r : Server.row) : value * value * number * category * string :=
  (Server.lon r, Server.lat r, Server.reflectivity r, Server.precipitation r,
   Server.color r).

Definition point_fields (p : point) : value * value * number * category * string :=
  (longitude p, latitude p, reflectivity p, precipitation p, color p).

(** The bounds every metadata record is given. *)
Definition continental_box : Server.bounds :=
  {| Server.minLat := 24; Server.maxLat := 49;
     Server.minLon := - 125; Server.maxLon := - 66 |}.

(** * Properties *)

(** ** Comparisons *)

Module NumFacts.
Import Num.

Lemma Qlt_bool_iff a b : Qlt_bool a b = true <-> a < b.
Proof.
  unfold Qlt_bool. rewrite negb_true_iff, <- not_true_iff_false, Qle_bool_iff.
  split; [apply Qnot_le_lt | apply Qlt_not_le].
Qed.

Lemma Qlt_bool_false a b : Qlt_bool a b = false <-> b <= a.
Proof.
  unfold Qlt_bool. rewrite negb_false_iff. apply Qle_bool_iff.
Qed.

Lemma lt_Fin a b : lt (Fin a) (Fin b) = true <-> a < b.
Proof. apply Qlt_bool_iff. Qed.

Lemma le_Fin a b : le (Fin a) (Fin b) = true <-> a <= b.
Proof. apply Qle_bool_iff. Qed.

(** A value that is not below a finite bound is NaN, or at least the
    bound. *)
Lemma lt_false x (b : Q) : lt x b = false -> x = NaN \/ le b x = true.
Proof.
  destruct x as [| |a|]; simpl; intros H; auto; try discriminate.
  right. now apply Qle_bool_iff, Qlt_bool_false.
Qed.

Lemma lt_le_trans x y z : lt x y = true -> le y z = true -> lt x z = true.
Proof.
  destruct x as [| |a|], y as [| |b|], z as [| |c|]; simpl; try easy.
  rewrite !Qlt_bool_iff, Qle_bool_iff. apply Qlt_le_trans.
Qed.

Lemma le_lt_trans x y z : le x y = true -> lt y z = true -> lt x z = true.
Proof.
  destruct x as [| |a|], y as [| |b|], z as [| |c|]; simpl; try easy.
  rewrite !Qlt_bool_iff, Qle_bool_iff. apply Qle_lt_trans.
Qed.

Lemma le_trans x y z : le x y = true -> le y z = true -> le x z = true.
Proof.
  destruct x as [| |a|], y as [| |b|], z as [| |c|]; simpl; try easy.
  rewrite !Qle_bool_iff. apply Qle_trans.
Qed.

Lemma lt_not_le x y : lt x y = true -> le y x = false.
Proof.
  destruct x as [| |a|], y as [| |b|]; simpl; try easy.
  unfold Qlt_bool. now rewrite negb_true_iff.
Qed.

(** Below a bound or not: the two tests of a bucket on a finite number. *)
Lemma lt_ge_Fin (q b : Q) : lt (Fin q) (Fin b) = negb (ge (Fin q) (Fin b)).
Proof. reflexivity. Qed.

End NumFacts.

(** ** The classifiers *)

(** Turns the comparisons of a finite number with the breakpoints, once
    named, into inequalities. *)
Ltac breakpoints :=
  repeat match goal with
  | H : Qle_bool _ _ = true |- _ => apply Qle_bool_iff in H
  | H : Qle_bool _ _ = false |- _ =>
      apply not_true_iff_false in H; rewrite Qle_bool_iff in H;
      apply Qnot_le_lt in H
  end.

Ltac by_buckets q :=
  cbn -[Qle_bool]; unfold Num.Qlt_bool;
  destruct (Qle_bool 10 q) eqn:?, (Qle_bool 20 q) eqn:?, (Qle_bool 30 q) eqn:?,
           (Qle_bool 40 q) eqn:?, (Qle_bool 50 q) eqn:?;
  cbn; try reflexivity; try lia; exfalso; breakpoints; lra.

Lemma processor_rows (r : number) :
  Num.isNaN r = false ->
  Processor.rows_for r =
    [ (Processor.reflectivityToPrecipitation r, Processor.getColorForReflectivity r) ].
Proof.
  destruct r as [| |q|]; intros H; try discriminate; try reflexivity.
  unfold Processor.rows_for, Processor.breakpoint_table,
    Processor.reflectivityToPrecipitation, Processor.getColorForReflectivity,
    Num.ge, Num.lt, Num.le.
  by_buckets q.
Qed.

Lemma processor_monotone (r r' : number) :
  Num.le r r' = true ->
  (category_index (Processor.reflectivityToPrecipitation r)
   <= category_index (Processor.reflectivityToPrecipitation r'))%nat.
Proof.
  unfold Processor.reflectivityToPrecipitation.
  destruct r as [| |a|], r' as [| |b|]; cbn -[Qle_bool];
    try discriminate; try lia; intros H; unfold Num.Qlt_bool;
    repeat match goal with
    | |- context [Qle_bool ?x ?y] => destruct (Qle_bool x y) eqn:?
    end; cbn; try lia; exfalso; breakpoints; lra.
Qed.

(** C1.  For every reflectivity that is a number (not NaN), exactly one row
    of the published breakpoint table applies, and the category and color
    of that row are what [reflectivityToPrecipitation] and
    [getColorForReflectivity] return: below 10 none and white, from 10
    light and green, from 20 moderate and yellow, from 30 heavy and orange,
    from 40 extreme and red, from 50 extreme and purple.  The index of the
    category does not decrease when the reflectivity increases. *)
Theorem five_bucket_classifier_follows_table :
  forall r : number,
    (Num.isNaN r = false ->
     Processor.rows_for r =
       [ (Processor.reflectivityToPrecipitation r,
          Processor.getColorForReflectivity r) ]) /\
    (forall r' : number,
       Num.le r r' = true ->
       (category_index (Processor.reflectivityToPrecipitation r)
        <= category_index (Processor.reflectivityToPrecipitation r'))%nat).
Proof.
  intros r. split.
  - apply processor_rows.
  - intros r'. apply processor_monotone.
Qed.

(** The classifier at and next to each breakpoint. *)
Example five_bucket_at_breakpoints :
  map (fun r : Q => (Processor.reflectivityToPrecipitation r,
                     Processor.getColorForReflectivity r))
      [ 999 # 100; 10; 1999 # 100; 20; 2999 # 100; 30; 3999 # 100; 40;
        4999 # 100; 50 ]
  = [ (none, "#ffffff"); (light, "#00ff00"); (light, "#00ff00");
      (moderate, "#ffff00"); (moderate, "#ffff00"); (heavy, "#ff8000");
      (heavy, "#ff8000"); (extreme, "#ff0000"); (extreme, "#ff0000");
      (extreme, "#800080") ].
Proof. reflexivity. Qed.

(** NaN is in no row of the table; the classifier puts it in its last
    bucket. *)
Example five_bucket_at_NaN :
  Processor.rows_for NaN = [] /\
  Processor.reflectivityToPrecipitation NaN = extreme /\
  Processor.getColorForReflectivity NaN = "#800080".
Proof. repeat split. Qed.

Lemma scraper_rows (r : number) :
  Num.isNaN r = false ->
  map snd (filter (fun row => fst row r) scraper_table) =
    [ (Scraper.classifyPrecipitation r, Scraper.getColorForReflectivity r) ].
Proof.
  destruct r as [| |q|]; intros H; try discriminate; try reflexivity.
  unfold scraper_table, Scraper.classifyPrecipitation,
    Scraper.getColorForReflectivity, Num.ge, Num.lt, Num.le.
  cbn -[Qle_bool]; unfold Num.Qlt_bool;
    destruct (Qle_bool 20 q) eqn:?, (Qle_bool 35 q) eqn:?, (Qle_bool 45 q) eqn:?;
    cbn; try reflexivity; exfalso; breakpoints; lra.
Qed.

(** The four pairs the 3-bucket classifier can give. *)
Lemma scraper_pairs (r : number) :
  In (Scraper.classifyPrecipitation r, Scraper.getColorForReflectivity r)
     (map snd scraper_table).
Proof.
  unfold Scraper.classifyPrecipitation, Scraper.getColorForReflectivity.
  destruct (Num.lt r 20); [cbn; tauto |].
  destruct (Num.lt r 35); [cbn; tauto |].
  destruct (Num.lt r 45); cbn; tauto.
Qed.

Lemma classified_precipitating (p : point) : classified p -> precipitating p.
Proof.
  intros (x & Hp & Hc). unfold precipitating. rewrite Hp, Hc.
  pose proof (scraper_pairs x) as H. cbn in H.
  destruct H as [H | [H | [H | [H | []]]]];
    inversion H as [[H1 H2]]; split; discriminate.
Qed.

(** ** Spreads *)

Section Spreads.
Context {RT : Runtime}.

Lemma spread_cases {A} (items : list A) :
  ((Z.of_nat (List.length items) <= max_arguments)%Z /\
   Scraper.spread items = Returned tt) \/
  ((max_arguments < Z.of_nat (List.length items))%Z /\
   Scraper.spread items = Thrown RangeError).
Proof.
  unfold Scraper.spread.
  destruct (Z.leb_spec (Z.of_nat (List.length items)) max_arguments);
    [left | right]; now split.
Qed.

(** A call takes 1999 arguments. *)
Lemma spread_small {A} (items : list A) :
  (List.length items <= 1999)%nat -> Scraper.spread items = Returned tt.
Proof.
  intros H. pose proof max_arguments_least.
  destruct (spread_cases items) as [[_ E] | [Hlt _]]; [exact E | lia].
Qed.

Lemma push_spread_small {A} (array items : list A) :
  (List.length items <= 1999)%nat ->
  Scraper.push_spread array items = Returned (array ++ items).
Proof.
  intros H. unfold Scraper.push_spread. now rewrite spread_small.
Qed.

Lemma push_spread_cases {A} (array items : list A) :
  ((Z.of_nat (List.length items) <= max_arguments)%Z /\
   Scraper.push_spread array items = Returned (array ++ items)) \/
  ((max_arguments < Z.of_nat (List.length items))%Z /\
   Scraper.push_spread array items = Thrown RangeError).
Proof.
  unfold Scraper.push_spread.
  destruct (spread_cases items) as [[H ->] | [H ->]]; [left | right]; now split.
Qed.
End Spreads.

(** ** The grid decoder *)

Section Decoder.
Context {RT : Runtime}.
Variables (now : Env) (fd : fieldData) (fieldName : string).

Let n := List.length (values fd).
Let s := Scraper.sampleRate_of fd.

Lemma sampleRate_pos : (1 <= Scraper.sampleRate_of fd)%nat.
Proof. unfold Scraper.sampleRate_of. lia. Qed.

Lemma convert_step_app (i : nat) (acc : list point) :
  Scraper.convert_step now fd fieldName i acc
  = acc ++ kept (decoded_at now fd fieldName i).
Proof.
  unfold decoded_at, Scraper.convert_step.
  destruct (nth i (values fd) Undefined) as [| |v]; cbn;
    try (now rewrite app_nil_r).
  destruct (Num.isNaN v || Num.lt v 0); cbn; [now rewrite app_nil_r | reflexivity].
Qed.

Lemma convert_loop_unfold (i : nat) (acc : list point) :
  Scraper.convert_loop now fd fieldName i acc =
  if (i <? n)%nat
  then Scraper.convert_loop now fd fieldName (i + s)
         (Scraper.convert_step now fd fieldName i acc)
  else acc.
Proof.
  rewrite Scraper.convert_loop_equation_1.
  unfold Scraper.convert_loop_unfold_clause_1.
  destruct (lt_dec i (List.length (values fd))) as [H | H];
    destruct (Nat.ltb_spec i n); subst n; try lia; reflexivity.
Qed.

Lemma ceil_div_step (m d : nat) :
  (1 <= d)%nat -> (1 <= m)%nat -> ceil_div m d = S (ceil_div (m - d) d).
Proof.
  intros Hd Hm. unfold ceil_div.
  destruct (Nat.le_gt_cases d m) as [H | H].
  - replace (m + d - 1)%nat with ((m - d + d - 1) + 1 * d)%nat by lia.
    rewrite Nat.div_add by lia. lia.
  - replace (m - d)%nat with 0%nat by lia. cbn [Nat.add].
    rewrite (Nat.div_small (d - 1) d) by lia.
    assert (E : ((m + d - 1) / d = 1)%nat); [| lia].
    replace (m + d - 1)%nat with ((m - 1) + 1 * d)%nat by lia.
    rewrite Nat.div_add by lia. rewrite Nat.div_small; lia.
Qed.

Lemma ceil_div_0 (d : nat) : (1 <= d)%nat -> ceil_div 0 d = 0%nat.
Proof. intros H. unfold ceil_div. apply Nat.div_small. lia. Qed.

(** From index [i] on, the loop visits [i], [i + s], [i + 2 s], ... below
    the length, and appends what each turn keeps. *)
Lemma convert_loop_from (m : nat) :
  forall (i : nat) (acc : list point),
    (n - i <= m)%nat ->
    Scraper.convert_loop now fd fieldName i acc =
    acc ++ flat_map (fun j => kept (decoded_at now fd fieldName j))
             (map (fun k => (i + k * s)%nat) (seq 0 (ceil_div (n - i) s))).
Proof.
  pose proof sampleRate_pos as Hs. fold s in Hs.
  induction m as [|m IH]; intros i acc Hm; rewrite convert_loop_unfold.
  - destruct (Nat.ltb_spec i n); [lia |].
    replace (n - i)%nat with 0%nat by lia. rewrite ceil_div_0 by lia.
    cbn. now rewrite app_nil_r.
  - destruct (Nat.ltb_spec i n) as [Hlt | Hge].
    + rewrite IH by lia. rewrite convert_step_app, <- app_assoc. f_equal.
      rewrite (ceil_div_step (n - i) s) by lia.
      replace (n - i - s)%nat with (n - (i + s))%nat by lia.
      rewrite <- cons_seq, <- seq_shift. cbn [map flat_map].
      rewrite map_map, Nat.add_0_r. f_equal. f_equal.
      apply map_ext. intros k. lia.
    + replace (n - i)%nat with 0%nat by lia. rewrite ceil_div_0 by lia.
      cbn. now rewrite app_nil_r.
Qed.

Lemma convert_sampled :
  Scraper.convertGRIB2ToRadarPoints now fd fieldName =
  flat_map (fun j => kept (decoded_at now fd fieldName j)) (sampled_indices n s).
Proof.
  unfold Scraper.convertGRIB2ToRadarPoints.
  rewrite (convert_loop_from n) by lia. cbn [app].
  rewrite Nat.sub_0_r. reflexivity.
Qed.
End Decoder.

Lemma kept_length {A} (o : option A) : (List.length (kept o) <= 1)%nat.
Proof. destruct o; cbn; lia. Qed.

Lemma flat_map_kept_length {A B} (f : A -> option B) (l : list A) :
  (List.length (flat_map (fun a => kept (f a)) l) <= List.length l)%nat.
Proof.
  induction l as [|a l IH]; cbn; [lia |].
  rewrite length_app. pose proof (kept_length (f a)). lia.
Qed.

(** What is kept of a list is the image of the sublist of its elements
    that give something. *)
Lemma flat_map_kept_filter {A B} (f : A -> option B) (l : list A) :
  map Some (flat_map (fun a => kept (f a)) l)
  = map f (filter (fun a => match f a with Some _ => true | None => false end) l).
Proof.
  induction l as [|a l IH]; cbn; [reflexivity |].
  destruct (f a) eqn:E; cbn; rewrite ?E, IH; reflexivity.
Qed.

Lemma seq_sorted (start len : nat) : StronglySorted lt (seq start len).
Proof.
  revert start. induction len as [|len IH]; intros start; cbn; constructor.
  - apply IH.
  - apply Forall_forall. intros x Hx. apply in_seq in Hx. lia.
Qed.

Lemma below_ceil_div (n d k : nat) :
  (1 <= d)%nat -> (k < ceil_div n d)%nat -> (k * d < n)%nat.
Proof.
  unfold ceil_div. intros Hd Hk.
  pose proof (Nat.Div0.mul_div_le (n + d - 1) d) as H.
  assert (S k * d <= n + d - 1)%nat; [| lia].
  etransitivity; [| exact H]. rewrite (Nat.mul_comm d). apply Nat.mul_le_mono_r. lia.
Qed.

Section DecoderPoints.
Context {RT : Runtime}.

(** The clamp of the decoder gives a finite number of [0,70], whatever
    number it is given. *)
Lemma clamp_range (v : number) :
  Num.isNaN v = false ->
  let r := Num.max 0 (Num.min 70 (mul v 10)) in
  Num.le 0 r = true /\ Num.le r 70 = true /\ Num.isFinite r = true.
Proof.
  destruct v as [| |q|]; intros H; try discriminate; cbn -[Qle_bool].
  - repeat split.
  - unfold Num.Qlt_bool.
    destruct (Qle_bool 70 (fmul q 10)) eqn:E1; cbn -[Qle_bool].
    + repeat split.
    + destruct (Qle_bool (fmul q 10) 0) eqn:E2; cbn -[Qle_bool].
      * repeat split.
      * repeat split; apply Qle_bool_iff; breakpoints; lra.
  - repeat split.
Qed.

Lemma decoded_at_inv (now : Env) (fd : fieldData) (name : string) (i : nat) (p : point) :
  decoded_at now fd name i = Some p ->
  exists v : number,
    nth i (values fd) Undefined = Num v /\
    Num.isNaN v = false /\ Num.lt v 0 = false /\
    p = {| coordinates := (nth i (longitudes fd) Undefined,
                           nth i (latitudes fd) Undefined);
           reflectivity :=
             if includes name "BREF" || includes name "REFL" then v
             else Num.max 0 (Num.min 70 (mul v 10));
           precipitation :=
             Scraper.classifyPrecipitation
               (if includes name "BREF" || includes name "REFL" then v
                else Num.max 0 (Num.min 70 (mul v 10)));
           color :=
             Scraper.getColorForReflectivity
               (if includes name "BREF" || includes name "REFL" then v
                else Num.max 0 (Num.min 70 (mul v 10)));
           source := Some "MRMS_GRIB2";
           field := Some name;
           station := None;
           timestamp := Date_toISOString now |}.
Proof.
  unfold decoded_at, Scraper.convert_step.
  destruct (nth i (values fd) Undefined) as [| |v]; cbn; try discriminate.
  destruct (Num.isNaN v) eqn:Hn, (Num.lt v 0) eqn:Hl; cbn; try discriminate.
  intros [= <-]. exists v. repeat split; try assumption; reflexivity.
Qed.

Lemma in_convert (now : Env) (fd : fieldData) (name : string) (p : point) :
  In p (Scraper.convertGRIB2ToRadarPoints now fd name) ->
  exists i : nat,
    (i < List.length (values fd))%nat /\ decoded_at now fd name i = Some p.
Proof.
  rewrite convert_sampled. intros H. apply in_flat_map in H.
  destruct H as (i & Hi & Hp). exists i. split.
  - unfold sampled_indices in Hi. apply in_map_iff in Hi.
    destruct Hi as (k & <- & Hk). apply in_seq in Hk.
    apply below_ceil_div; [apply sampleRate_pos | lia].
  - destruct (decoded_at now fd name i); cbn in Hp; [| contradiction].
    destruct Hp as [-> | []]. reflexivity.
Qed.
End DecoderPoints.

Lemma decoded_at_skipped {RT : Runtime} (now : Env) (fd : fieldData)
    (name : string) (i : nat) :
  match decoded_at now fd name i with Some _ => true | None => false end
  = negb (skipped (nth i (values fd) Undefined)).
Proof.
  unfold decoded_at, Scraper.convert_step, skipped.
  destruct (nth i (values fd) Undefined) as [| |v]; cbn; try reflexivity.
  destruct (Num.isNaN v || Num.lt v 0); reflexivity.
Qed.

Lemma map_sorted (f : nat -> nat) (l : list nat) :
  (forall a b, (a < b)%nat -> (f a < f b)%nat) ->
  StronglySorted lt l -> StronglySorted lt (map f l).
Proof.
  intros Hf. induction 1 as [|a l Hl IH Ha]; cbn; constructor; [exact IH |].
  rewrite Forall_forall in Ha. apply Forall_forall. intros y Hy.
  apply in_map_iff in Hy. destruct Hy as (b & <- & Hb). apply Hf, Ha, Hb.
Qed.

Lemma sampled_indices_sorted (n d : nat) :
  (1 <= d)%nat -> StronglySorted lt (sampled_indices n d).
Proof.
  intros Hd. unfold sampled_indices. apply map_sorted; [| apply seq_sorted].
  intros a b Hab. nia.
Qed.

(** The sampled indices are the multiples of the stride below the
    length. *)
Lemma in_sampled_indices (n d i : nat) :
  (1 <= d)%nat -> In i (sampled_indices n d) <-> (i < n)%nat /\ (i mod d = 0)%nat.
Proof.
  intros Hd. unfold sampled_indices. rewrite in_map_iff. split.
  - intros (k & <- & Hk). apply in_seq in Hk. split.
    + apply below_ceil_div; lia.
    + apply Nat.Div0.mod_mul.
  - intros [Hi Hm]. exists (i / d)%nat.
    pose proof (Nat.div_mod_eq i d) as E. rewrite Hm in E.
    split; [lia |]. apply in_seq. split; [lia |]. cbn.
    unfold ceil_div.
    assert (H : (i / d + 1 <= (n + d - 1) / d)%nat); [| lia].
    apply Nat.div_le_lower_bound; [lia |]. nia.
Qed.

Lemma map_kept {A B C} (f : A -> option B) (g : B -> C) (h : A -> C) (l : list B) :
  forall K : list A,
    map Some l = map f K ->
    (forall a b, f a = Some b -> g b = h a) ->
    map g l = map h K.
Proof.
  induction l as [|b l IH]; intros [|a K]; cbn; try discriminate; [reflexivity |].
  intros [= E1 E2] H. f_equal; [apply H; auto | apply IH; auto].
Qed.

(** C7.  For every field of N values the decoder samples with the stride
    max(1, floor(N / 1000)) and emits at most ceil(N / stride) points.  The
    sampled indices are the multiples of the stride below N, in increasing
    order.  The decoder emits one point for every sampled index whose value
    it does not drop (null, undefined, NaN, negative) and no other point,
    in the order of the indices: the points are those decoded at these
    indices, and their coordinates are the longitudes and latitudes stored
    at these indices. *)
Theorem decoder_thins_by_stride :
  forall (RT : Runtime) (now : Env) (fieldData : fieldData) (fieldName : string),
    let N := List.length (values fieldData) in
    let stride := Nat.max 1 (N / 1000) in
    let points := Scraper.convertGRIB2ToRadarPoints now fieldData fieldName in
    let sampled := sampled_indices N stride in
    let emitted :=
      filter (fun i => negb (skipped (nth i (values fieldData) Undefined))) sampled in
    Scraper.sampleRate_of fieldData = stride /\
    (List.length points <= ceil_div N stride)%nat /\
    StronglySorted lt sampled /\
    (forall i : nat, In i sampled <-> (i < N)%nat /\ (i mod stride = 0)%nat) /\
    map Some points = map (decoded_at now fieldData fieldName) emitted /\
    map coordinates points =
      map (fun i => (nth i (longitudes fieldData) Undefined,
                     nth i (latitudes fieldData) Undefined)) emitted.
Proof.
  intros RT now fd name N stride points sampled emitted.
  assert (Hs : (1 <= stride)%nat) by (subst stride; lia).
  assert (E : map Some points = map (decoded_at now fd name) emitted).
  { subst points emitted sampled. rewrite convert_sampled.
    change (Scraper.sampleRate_of fd) with stride.
    change (List.length (values fd)) with N.
    rewrite flat_map_kept_filter. f_equal. apply filter_ext.
    intros i. apply decoded_at_skipped. }
  split; [reflexivity |]. split; [| split; [| split; [| split]]].
  - subst points. rewrite convert_sampled.
    etransitivity; [apply flat_map_kept_length |].
    unfold sampled_indices. now rewrite length_map, length_seq.
  - now apply sampled_indices_sorted.
  - intros i. now apply in_sampled_indices.
  - exact E.
  - eapply map_kept; [exact E |]. intros i p Hp.
    apply decoded_at_inv in Hp. destruct Hp as (v & _ & _ & _ & ->). reflexivity.
Qed.

(** C8 (as amended).  Every point the decoder emits comes from a sampled
    index whose value is a number that is neither NaN nor negative; it
    carries the longitude and the latitude stored at that index, whatever
    they are; its reflectivity is at least 0.  In a field whose name contains
    BREF or REFL the reflectivity is the value itself; in any other field it
    is the value times 10, clamped to [0,70], a finite number. *)
Theorem decoder_keeps_valid_values :
  forall (RT : Runtime) (now : Env) (fieldData : fieldData) (fieldName : string),
    Forall
      (fun p : point =>
         exists (i : nat) (v : number),
           (i < List.length (values fieldData))%nat /\
           nth i (values fieldData) Undefined = Num v /\
           Num.isNaN v = false /\ Num.lt v 0 = false /\
           coordinates p = (nth i (longitudes fieldData) Undefined,
                            nth i (latitudes fieldData) Undefined) /\
           Num.ge (reflectivity p) 0 = true /\
           if includes fieldName "BREF" || includes fieldName "REFL"
           then reflectivity p = v
           else reflectivity p = Num.max 0 (Num.min 70 (mul v 10)) /\
                Num.le (reflectivity p) 70 = true /\
                Num.isFinite (reflectivity p) = true)
      (Scraper.convertGRIB2ToRadarPoints now fieldData fieldName).
Proof.
  intros RT now fd name. apply Forall_forall. intros p Hp.
  apply in_convert in Hp. destruct Hp as (i & Hi & Hp).
  apply decoded_at_inv in Hp. destruct Hp as (v & Hv & Hn & Hl & ->).
  exists i, v. cbn [coordinates reflectivity].
  repeat (split; [assumption || reflexivity |]).
  pose proof (clamp_range v Hn) as (H0 & H70 & Hf).
  destruct (includes name "BREF" || includes name "REFL").
  - split; [| reflexivity].
    destruct (NumFacts.lt_false v 0 Hl) as [-> | H]; [discriminate | exact H].
  - repeat split; assumption.
Qed.

(** C2 (as amended).  For the field BREF_1HR_MAX with the values
    [5, 15, 25, -1, NaN] and any latitude and longitude arrays of length 5,
    the decoder drops the indices 3 and 4 and keeps three points, which it
    classifies with the 3-bucket classifier of the scraper: 5 as light and
    #00ff00, 15 as light and #00ff00, 25 as moderate and #ffff00. *)
Theorem decoder_scenario :
  forall (RT : Runtime) (now : Env) (la0 la1 la2 la3 la4 lo0 lo1 lo2 lo3 lo4 : value),
    Scraper.convertGRIB2ToRadarPoints now
      {| values := scenario_values;
         latitudes := [la0; la1; la2; la3; la4];
         longitudes := [lo0; lo1; lo2; lo3; lo4] |}
      "BREF_1HR_MAX"
    = [ decoded_point now "BREF_1HR_MAX" lo0 la0 5 light "#00ff00";
        decoded_point now "BREF_1HR_MAX" lo1 la1 15 light "#00ff00";
        decoded_point now "BREF_1HR_MAX" lo2 la2 25 moderate "#ffff00" ].
Proof.
  intros. rewrite convert_sampled. reflexivity.
Qed.

(** C2 as stated fails: in the scenario the decoder does not label the
    reflectivities 5, 15 and 25 as none/#ffffff, light/#00ff00 and
    moderate/#ffff00. *)
Lemma decoder_scenario_is_not_five_bucket :
  map (fun p => (reflectivity p, precipitation p, color p))
      (Scraper.convertGRIB2ToRadarPoints (RT := Simulation.runtime) offline
         scenario_field "BREF_1HR_MAX")
  <> [ (Fin 5, none, "#ffffff"); (Fin 15, light, "#00ff00");
       (Fin 25, moderate, "#ffff00") ].
Proof.
  rewrite convert_sampled. cbv. intros H. discriminate H.
Qed.

(** ** Loops, rounding and the generators of the scraper *)

Section Loops.
Context {RT : Runtime}.

Lemma for_range_ind {A} (P : A -> Prop) (body : nat -> A -> State A) (count : nat) :
  forall (start : nat) (acc : A) (e : Env),
    (forall i a e', (start <= i < start + count)%nat -> P a -> P (fst (body i a e'))) ->
    P acc -> P (fst (for_range start count body acc e)).
Proof.
  induction count as [|count IH]; intros start acc e Hbody Hacc; cbn.
  - exact Hacc.
  - unfold bind. destruct (body start acc e) as [acc' e'] eqn:E.
    apply IH.
    + intros i a e0 Hi. apply Hbody. lia.
    + change acc' with (fst (acc', e')). rewrite <- E. apply Hbody; [lia | exact Hacc].
Qed.

Lemma forEach_ind {X A} (P : A -> Prop) (body : X -> A -> State A) (items : list X) :
  forall (acc : A) (e : Env),
    (forall x a e', In x items -> P a -> P (fst (body x a e'))) ->
    P acc -> P (fst (forEach items body acc e)).
Proof.
  induction items as [|x items IH]; intros acc e Hbody Hacc; cbn.
  - exact Hacc.
  - unfold bind. destruct (body x acc e) as [acc' e'] eqn:E.
    apply IH.
    + intros y a e0 Hy. apply Hbody. now right.
    + change acc' with (fst (acc', e')). rewrite <- E.
      apply Hbody; [now left | exact Hacc].
Qed.

(** A loop whose every turn pushes one element pushes [count] of them. *)
Lemma for_range_length {B} (body : nat -> list B -> State (list B)) (count : nat) :
  forall (start : nat) (acc : list B) (e : Env),
    (forall i a e', List.length (fst (body i a e')) = S (List.length a)) ->
    List.length (fst (for_range start count body acc e))
    = (List.length acc + count)%nat.
Proof.
  induction count as [|count IH]; intros start acc e Hbody; cbn.
  - lia.
  - unfold bind. destruct (body start acc e) as [acc' e'] eqn:E.
    rewrite IH by exact Hbody.
    change acc' with (fst (acc', e')). rewrite <- E, Hbody. lia.
Qed.
End Loops.

Section Rounding.
Context {RT : Runtime}.

Lemma rnd_between (a b : Z) (x : Q) :
  small a -> small b ->
  inject_Z a <= x -> x <= inject_Z b ->
  inject_Z a <= rnd x /\ rnd x <= inject_Z b.
Proof.
  intros Ha Hb H1 H2. split.
  - rewrite <- (rnd_integer a Ha). now apply rnd_monotone.
  - rewrite <- (rnd_integer b Hb). now apply rnd_monotone.
Qed.

Lemma literal_between (a b : Z) (q : Q) :
  small a -> small b ->
  inject_Z a <= q -> q <= inject_Z b ->
  inject_Z a <= literal q /\ literal q <= inject_Z b.
Proof. apply rnd_between. Qed.

Lemma fadd_between (a b : Z) (x y : Q) :
  small a -> small b ->
  inject_Z a <= x + y -> x + y <= inject_Z b ->
  inject_Z a <= x +. y /\ x +. y <= inject_Z b.
Proof. apply rnd_between. Qed.

Lemma fsub_between (a b : Z) (x y : Q) :
  small a -> small b ->
  inject_Z a <= x - y -> x - y <= inject_Z b ->
  inject_Z a <= x -. y /\ x -. y <= inject_Z b.
Proof. apply rnd_between. Qed.

(** A product of a factor of magnitude at most [A] and one of magnitude
    at most [B]. *)
Lemma fmul_magnitude (A B : Z) (x y : Q) :
  small (A * B) ->
  - inject_Z A <= x -> x <= inject_Z A ->
  - inject_Z B <= y -> y <= inject_Z B ->
  - inject_Z (A * B) <= x *. y /\ x *. y <= inject_Z (A * B).
Proof.
  intros Hs Hx1 Hx2 Hy1 Hy2.
  assert (Hs' : small (- (A * B))) by (unfold small in *; lia).
  destruct (rnd_between (- (A * B)) (A * B) (x * y) Hs' Hs) as [H1 H2].
  - rewrite inject_Z_opp, inject_Z_mult. nra.
  - rewrite inject_Z_mult. nra.
  - rewrite inject_Z_opp in H1. tauto.
Qed.

Lemma fmul_nonneg (A B : Z) (x y : Q) :
  small (A * B) ->
  0 <= x -> x <= inject_Z A ->
  0 <= y -> y <= inject_Z B ->
  0 <= x *. y /\ x *. y <= inject_Z (A * B).
Proof.
  intros Hs Hx1 Hx2 Hy1 Hy2.
  apply (rnd_between 0 (A * B) (x * y)); [cbv; discriminate | exact Hs | |].
  - change (inject_Z 0) with 0. nra.
  - rewrite inject_Z_mult. nra.
Qed.

(** [i / n] for an index below [n]. *)
Lemma fdiv_index (i : nat) (n : Z) :
  (Z.of_nat i < n)%Z ->
  0 <= inject_Z (Z.of_nat i) /. inject_Z n /\ inject_Z (Z.of_nat i) /. inject_Z n <= 1.
Proof.
  intros H. apply (rnd_between 0 1); try (cbv; discriminate).
  - change (inject_Z 0) with 0. apply Qle_shift_div_l.
    + change 0 with (inject_Z 0). rewrite <- Zlt_Qlt. lia.
    + rewrite Qmult_0_l. change 0 with (inject_Z 0). rewrite <- Zle_Qle. lia.
  - change (inject_Z 1) with 1. apply Qle_shift_div_r.
    + change 0 with (inject_Z 0). rewrite <- Zlt_Qlt. lia.
    + rewrite Qmult_1_l. rewrite <- Zle_Qle. lia.
Qed.

(** The number of turns of a loop whose bound is
    [Math.floor(Math.random() * k) + base]. *)
Lemma count_range (r : Q) (k base : Z) :
  (0 <= k)%Z -> small k ->
  0 <= r -> r < 1 ->
  (base <= Math_floor (r *. inject_Z k) + base <= k + base)%Z.
Proof.
  intros Hk Hs H0 H1.
  destruct (fmul_nonneg 1 k r (inject_Z k)) as [Ha Hb].
  - now rewrite Z.mul_1_l.
  - exact H0.
  - change (inject_Z 1) with 1. lra.
  - change 0 with (inject_Z 0). rewrite <- Zle_Qle. exact Hk.
  - apply Qle_refl.
  - rewrite Z.mul_1_l in Hb. unfold Math_floor.
    apply Qfloor_resp_le in Ha, Hb. rewrite Qfloor_Z in Hb.
    change (Qfloor 0) with 0%Z in Ha. lia.
Qed.
End Rounding.

Ltac small_side := solve [cbv; discriminate].

(** Turns the integer bounds of the rounding lemmas into numerals. *)
Ltac numerals := unfold inject_Z in *; cbn [Z.mul Z.opp Pos.mul Z.add Pos.add] in *; idtac.

(** Names the next value of [Math.random] and records its range. *)
Ltac draw r :=
  match goal with
  | |- context [Math_random ?e] =>
      let H := fresh "H" r in
      let e' := fresh "e" in
      pose proof (Math_random_range e) as H;
      destruct (Math_random e) as [r e']; cbn [fst] in H
  end.

Section Stations.
Context {RT : Runtime}.

Lemma literal_latitude (q : Q) :
  29 <= q -> q <= 36 -> 29 <= literal q /\ literal q <= 36.
Proof. intros. apply (literal_between 29 36); try small_side; assumption. Qed.

Lemma literal_longitude (q : Q) :
  89 <= q -> q <= 101 -> - 101 <= - literal q /\ - literal q <= - 89.
Proof.
  intros H1 H2.
  destruct (literal_between 89 101 q) as [? ?]; try small_side; try assumption.
  numerals; split; lra.
Qed.

Lemma stations_in_range : Forall station_in_range Scraper.getRadarStations.
Proof.
  unfold Scraper.getRadarStations, station_in_range.
  repeat (apply Forall_cons;
    [ cbn [lat lon];
      repeat match goal with
      | |- _ /\ _ => split
      | |- context [- literal ?q] =>
          let H := fresh in
          assert (H : - 101 <= - literal q /\ - literal q <= - 89)
            by (apply literal_longitude; cbv; discriminate);
          destruct H; assumption
      | |- context [literal ?q] =>
          let H := fresh in
          assert (H : 29 <= literal q /\ literal q <= 36)
            by (apply literal_latitude; cbv; discriminate);
          destruct H; assumption
      | |- _ => cbv; discriminate
      end | ]).
  apply Forall_nil.
Qed.

Lemma near_station (s : radarStation) (dlat dlon : Q) :
  station_in_range s ->
  - 5 <= dlat -> dlat <= 5 -> - 5 <= dlon -> dlon <= 5 ->
  in_box (lat s +. dlat) (lon s +. dlon).
Proof.
  intros (H1 & H2 & H3 & H4) Ha Hb Hc Hd. unfold in_box.
  destruct (fadd_between 24 41 (lat s) dlat) as [? ?];
    [small_side | small_side | numerals; lra | numerals; lra |].
  destruct (fadd_between (- 106) (- 84) (lon s) dlon) as [? ?];
    [small_side | small_side | numerals; lra | numerals; lra |].
  numerals. repeat split; lra.
Qed.

(** A distance of at most 5 degrees along a direction. *)
Lemma trig_offset (d c : Q) :
  0 <= d -> d <= 5 -> - 1 <= c -> c <= 1 ->
  - 5 <= d *. c /\ d *. c <= 5.
Proof.
  intros H0 H5 Hc1 Hc2.
  destruct (fmul_magnitude 5 1 d c) as [? ?];
    [small_side | numerals; lra .. |].
  numerals. split; lra.
Qed.

Lemma new_station_point (s : radarStation) (dlat dlon : Q) (x shown : number)
    (now : string) :
  station_in_range s ->
  - 5 <= dlat -> dlat <= 5 -> - 5 <= dlon -> dlon <= 5 ->
  station_point
    {| coordinates := (Num (Fin (lon s +. dlon)), Num (Fin (lat s +. dlat)));
       reflectivity := shown;
       precipitation := Scraper.classifyPrecipitation x;
       color := Scraper.getColorForReflectivity x;
       source := None;
       field := None;
       station := Some (id s);
       timestamp := now |}.
Proof.
  intros Hs Ha Hb Hc Hd. split; [| split; [| split]].
  - eexists _, _. split; [reflexivity |]. now apply near_station.
  - exists x. split; reflexivity.
  - reflexivity.
  - discriminate.
Qed.

Lemma push_station_point (mockData : list point) (p : point) :
  Forall station_point mockData -> station_point p ->
  Forall station_point (mockData ++ [p]).
Proof.
  intros H Hp. apply Forall_app. split; [exact H | now constructor].
Qed.

Lemma generateThunderstormCell_points (mockData : list point) (s : radarStation) (e : Env) :
  station_in_range s ->
  Forall station_point mockData ->
  Forall station_point (fst (Scraper.generateThunderstormCell mockData s e)).
Proof.
  intros Hs Hm. unfold Scraper.generateThunderstormCell, bind.
  draw r0. draw r1.
  apply for_range_ind; [| exact Hm].
  intros i a e' Hi Ha. unfold bind, Scraper.clock, ret.
  draw r2. draw r3. cbn [fst].
  apply push_station_point; [exact Ha |].
  destruct (fmul_nonneg 1 2 r2 (3 # 2)) as [? ?];
    [small_side | numerals; lra .. |].
  pose proof (Math_cos_range
    (Math_PI *. 2 *. inject_Z (Z.of_nat i) /. inject_Z (Math_floor (r0 *. 8) + 5)))
    as [? ?].
  pose proof (Math_sin_range
    (Math_PI *. 2 *. inject_Z (Z.of_nat i) /. inject_Z (Math_floor (r0 *. 8) + 5)))
    as [? ?].
  apply new_station_point; try exact Hs; apply trig_offset; numerals; lra.
Qed.

Lemma generateWeatherFront_points (mockData : list point) (s : radarStation) (e : Env) :
  station_in_range s ->
  Forall station_point mockData ->
  Forall station_point (fst (Scraper.generateWeatherFront mockData s e)).
Proof.
  intros Hs Hm. unfold Scraper.generateWeatherFront, bind.
  draw r0. draw r1. draw r2.
  destruct (fmul_nonneg 1 3 r2 3) as [? ?];
    [small_side | numerals; lra .. |].
  destruct (fadd_between 2 5 2 (r2 *. 3)) as [? ?];
    [small_side | small_side | numerals; lra .. |].
  apply for_range_ind; [| exact Hm].
  intros i a e' Hi Ha. unfold bind, Scraper.clock, ret.
  draw r3. cbn [fst].
  apply push_station_point; [exact Ha |].
  destruct (fdiv_index i (Math_floor (r0 *. 15) + 10)) as [? ?]; [lia |].
  destruct (fmul_nonneg 1 5
              (inject_Z (Z.of_nat i) /. inject_Z (Math_floor (r0 *. 15) + 10))
              (2 +. r2 *. 3)) as [? ?];
    [small_side | numerals; lra .. |].
  pose proof (Math_cos_range (r1 *. Math_PI *. 2)) as [? ?].
  pose proof (Math_sin_range (r1 *. Math_PI *. 2)) as [? ?].
  apply new_station_point; try exact Hs; apply trig_offset; numerals; lra.
Qed.

(** [(Math.random() - 0.5) * 4.0] *)
Lemma shower_offset (r : Q) :
  0 <= r -> r < 1 ->
  - 5 <= (r -. (1 # 2)) *. 4 /\ (r -. (1 # 2)) *. 4 <= 5.
Proof.
  intros H0 H1.
  destruct (fsub_between (- 1) 1 r (1 # 2)) as [? ?];
    [small_side | small_side | numerals; lra .. |].
  destruct (fmul_magnitude 1 4 (r -. (1 # 2)) 4) as [? ?];
    [small_side | numerals; lra .. |].
  numerals. split; lra.
Qed.

Lemma generateScatteredShowers_points (mockData : list point) (s : radarStation) (e : Env) :
  station_in_range s ->
  Forall station_point mockData ->
  Forall station_point (fst (Scraper.generateScatteredShowers mockData s e)).
Proof.
  intros Hs Hm. unfold Scraper.generateScatteredShowers, bind.
  draw r0.
  apply for_range_ind; [| exact Hm].
  intros i a e' Hi Ha. unfold bind, Scraper.clock, ret.
  draw r1. draw r2. draw r3. cbn [fst].
  apply push_station_point; [exact Ha |].
  destruct (shower_offset r1) as [? ?]; try tauto.
  destruct (shower_offset r2) as [? ?]; try tauto.
  apply new_station_point; try exact Hs; assumption.
Qed.

Lemma getEnhancedMockData_points (e : Env) :
  Forall station_point (fst (Scraper.getEnhancedMockData e)).
Proof.
  unfold Scraper.getEnhancedMockData.
  apply forEach_ind; [| constructor].
  intros s a e' Hin Ha. unfold bind.
  assert (Hs : station_in_range s).
  { pose proof stations_in_range as H. rewrite Forall_forall in H. now apply H. }
  draw systemType.
  destruct (Num.Qlt_bool systemType (literal (3 # 10)));
    [now apply generateThunderstormCell_points |].
  destruct (Num.Qlt_bool systemType (literal (6 # 10)));
    [now apply generateWeatherFront_points
    | now apply generateScatteredShowers_points].
Qed.

Lemma extractPrecipitationData_points (forecast : forecastData) (s : radarStation)
    (e : Env) :
  station_in_range s ->
  Forall station_point (fst (Scraper.extractPrecipitationData forecast s e)).
Proof.
  intros Hs. unfold Scraper.extractPrecipitationData.
  destruct (periods forecast) as [ps |]; [| constructor].
  apply forEach_ind; [| constructor].
  intros probability data e' _ Hdata.
  destruct probability as [| |value]; try exact Hdata.
  destruct (Num.gt value 0); [| exact Hdata].
  unfold bind. draw r0.
  apply for_range_ind; [| exact Hdata].
  intros i a e1 Hi Ha. unfold bind, Scraper.clock, ret.
  draw r1. draw r2. cbn [fst].
  apply push_station_point; [exact Ha |].
  destruct (fmul_nonneg 1 2 r1 2) as [? ?];
    [small_side | numerals; lra .. |].
  pose proof (Math_cos_range
    (Math_PI *. 2 *. inject_Z (Z.of_nat i) /. inject_Z (Math_floor (r0 *. 10) + 5)))
    as [? ?].
  pose proof (Math_sin_range
    (Math_PI *. 2 *. inject_Z (Z.of_nat i) /. inject_Z (Math_floor (r0 *. 10) + 5)))
    as [? ?].
  apply new_station_point; try exact Hs; apply trig_offset; numerals; lra.
Qed.

Lemma getNWSRadarData_points (e : Env) :
  exists (points : list point) (e' : Env),
    Scraper.getNWSRadarData e = (Returned points, e') /\
    Forall station_point points.
Proof.
  unfold Scraper.getNWSRadarData, total.
  match goal with
  | |- context [forEach ?l ?b ?a e] =>
      pose proof (forEach_ind (Forall station_point) b l a e) as H;
      destruct (forEach l b a e) as [points e']
  end.
  exists points, e'. split; [reflexivity |]. apply H; [| constructor].
  intros s a e0 Hin Ha. unfold bind, Scraper.getStationRadarData, ret.
  assert (Hs : station_in_range s).
  { pose proof stations_in_range as Hr. rewrite Forall_forall in Hr.
    apply Hr. rewrite <- (firstn_skipn 5). apply in_or_app. now left. }
  destruct (axios_get_forecast s e0) as [[forecast | err] e1].
  - pose proof (extractPrecipitationData_points forecast s e1 Hs) as Hp.
    destruct (Scraper.extractPrecipitationData forecast s e1) as [data e2].
    cbn [fst] in Hp.
    destruct (push_spread_cases a data) as [[_ ->] | [_ ->]]; cbn [fst];
      [apply Forall_app; split; assumption | exact Ha].
  - destruct (push_spread_cases a (@nil point)) as [[_ ->] | [_ ->]]; cbn [fst];
      [rewrite app_nil_r |]; exact Ha.
Qed.

End Stations.

Section Counts.
Context {RT : Runtime}.

Lemma forEach_length_between {X B} (body : X -> list B -> State (list B))
    (lo hi : nat) (items : list X) :
  (forall x a e,
     (List.length a + lo <= List.length (fst (body x a e)) <= List.length a + hi)%nat) ->
  forall (acc : list B) (e : Env),
    (List.length acc + lo * List.length items
     <= List.length (fst (forEach items body acc e))
     <= List.length acc + hi * List.length items)%nat.
Proof.
  intros Hbody. induction items as [|x items IH]; intros acc e; cbn.
  - lia.
  - unfold bind. pose proof (Hbody x acc e) as H.
    destruct (body x acc e) as [acc' e']. cbn [fst] in H.
    specialize (IH acc' e'). lia.
Qed.

(** One turn of a generator's loop pushes one point. *)
Ltac one_push :=
  intros; unfold bind, Scraper.clock, ret;
  repeat match goal with
  | |- context [Math_random ?e] => destruct (Math_random e)
  end;
  cbn [fst]; rewrite length_app; cbn; lia.

Lemma generateThunderstormCell_length (mockData : list point) (s : radarStation) (e : Env) :
  (List.length mockData + 5
   <= List.length (fst (Scraper.generateThunderstormCell mockData s e))
   <= List.length mockData + 13)%nat.
Proof.
  unfold Scraper.generateThunderstormCell, bind.
  draw r0. draw r1. rewrite for_range_length by one_push.
  destruct Hr0 as [H0 H1].
  pose proof (count_range r0 8 5 ltac:(lia) ltac:(cbv; discriminate) H0 H1) as H.
  change (inject_Z 8) with (8 : Q) in H. lia.
Qed.

Lemma generateWeatherFront_length (mockData : list point) (s : radarStation) (e : Env) :
  (List.length mockData + 10
   <= List.length (fst (Scraper.generateWeatherFront mockData s e))
   <= List.length mockData + 25)%nat.
Proof.
  unfold Scraper.generateWeatherFront, bind.
  draw r0. draw r1. draw r2. rewrite for_range_length by one_push.
  destruct Hr0 as [H0 H1].
  pose proof (count_range r0 15 10 ltac:(lia) ltac:(cbv; discriminate) H0 H1) as H.
  change (inject_Z 15) with (15 : Q) in H. lia.
Qed.

Lemma generateScatteredShowers_length (mockData : list point) (s : radarStation) (e : Env) :
  (List.length mockData + 8
   <= List.length (fst (Scraper.generateScatteredShowers mockData s e))
   <= List.length mockData + 20)%nat.
Proof.
  unfold Scraper.generateScatteredShowers, bind.
  draw r0. rewrite for_range_length by one_push.
  destruct Hr0 as [H0 H1].
  pose proof (count_range r0 12 8 ltac:(lia) ltac:(cbv; discriminate) H0 H1) as H.
  change (inject_Z 12) with (12 : Q) in H. lia.
Qed.

Lemma getEnhancedMockData_length (e : Env) :
  (50 <= List.length (fst (Scraper.getEnhancedMockData e)) <= 250)%nat.
Proof.
  unfold Scraper.getEnhancedMockData.
  match goal with
  | |- context [forEach ?l ?b ?a e] =>
      pose proof (forEach_length_between b 5 25 l) as H
  end.
  match type of H with
  | ?A -> _ => assert (Hbody : A);
      [| specialize (H Hbody [] e);
         change (List.length Scraper.getRadarStations) with 10%nat in H;
         cbn [List.length] in H; lia]
  end.
  intros s a e'. unfold bind. draw systemType.
  destruct (Num.Qlt_bool systemType (literal (3 # 10))).
  { pose proof (generateThunderstormCell_length a s e0). lia. }
  destruct (Num.Qlt_bool systemType (literal (6 # 10))).
  { pose proof (generateWeatherFront_length a s e0). lia. }
  pose proof (generateScatteredShowers_length a s e0). lia.
Qed.
End Counts.

(** ** The fallback chain *)

Section Pipeline.
Context {RT : Runtime}.
Variables ncep viewer nws : Env -> outcome (list point) * Env.

Lemma chain_refines_spec (w : world) :
  Scraper.getLatestRadarData_with ncep viewer nws w =
  AcquisitionPipeline_spec
    [ (GetMRMSNcepData, ncep); (GetMRMSViewerData, viewer); (GetNWSRadarData, nws) ] w.
Proof.
  unfold Scraper.getLatestRadarData_with, Scraper.getLatestRadarData_body,
    function, try_catch, seq_, call, continue, return_, total, after.
  cbn [AcquisitionPipeline_spec env invoked].
  generalize Scraper.getEnhancedMockData. intros synthetic.
  destruct (ncep (env w)) as [[[|p1 l1] | err1] e1]; cbn;
  destruct (viewer e1) as [[[|p2 l2] | err2] e2]; cbn;
  destruct (nws e2) as [[[|p3 l3] | err3] e3]; cbn;
  destruct (synthetic e3) as [mock e4]; cbn; unfold after; cbn [env invoked];
    rewrite <- ?app_assoc; reflexivity.
Qed.

Lemma chain_short_circuit (w : world) (points : list point) (e' : Env) :
  ncep (env w) = (Returned points, e') ->
  points <> [] ->
  Scraper.getLatestRadarData_with ncep viewer nws w =
  (Returned points, after w GetMRMSNcepData e').
Proof.
  intros H Hne. rewrite chain_refines_spec. cbn [AcquisitionPipeline_spec].
  rewrite H. destruct points; [contradiction | reflexivity].
Qed.

Lemma chain_total_fallback (w : world) (err1 err2 err3 : error) (e1 e2 e3 : Env) :
  ncep (env w) = (Thrown err1, e1) ->
  viewer e1 = (Thrown err2, e2) ->
  nws e2 = (Thrown err3, e3) ->
  Scraper.getLatestRadarData_with ncep viewer nws w =
  (Returned (fst (Scraper.getEnhancedMockData e3)),
   {| env := snd (Scraper.getEnhancedMockData e3);
      invoked := invoked w ++ [GetMRMSNcepData; GetMRMSViewerData;
                               GetNWSRadarData; GetEnhancedMockData] |}).
Proof.
  intros H1 H2 H3. rewrite chain_refines_spec. cbn [AcquisitionPipeline_spec].
  rewrite H1. unfold after at 1. cbn [env]. rewrite H2. unfold after at 1. cbn [env]. rewrite H3. unfold after. cbn [env invoked].
  destruct (Scraper.getEnhancedMockData e3) as [mock e4]. cbn [fst snd].
  rewrite <- !app_assoc. reflexivity.
Qed.
End Pipeline.

(** ** The regional generator of the processor *)

Section Regional.
Context {RT : Runtime}.

Lemma createMockRadarData_throws (e : Env) :
  fst (Processor.createMockRadarData e) = Thrown (ReferenceError "minLat").
Proof.
  unfold Processor.createMockRadarData.
  destruct (Processor.createMockRadarData_points e) as [radarPoints e1].
  reflexivity.
Qed.

(** Rounding to three decimals keeps a value between two integers. *)
Lemma toFixed_between (a b : Z) (x : Q) (digits : nat) :
  inject_Z a <= x -> x <= inject_Z b ->
  inject_Z a <= toFixed x digits /\ toFixed x digits <= inject_Z b.
Proof.
  intros Ha Hb. unfold toFixed.
  set (scale := (10 ^ Z.of_nat digits)%Z).
  assert (Hscale : (0 < scale)%Z) by (subst scale; apply Z.pow_pos_nonneg; lia).
  assert (Hq : 0 < inject_Z scale).
  { change 0 with (inject_Z 0). now rewrite <- Zlt_Qlt. }
  destruct (Num.Qlt_bool x 0).
  - assert (H1 : (- b * scale <= Qfloor (- x * inject_Z scale + (1 # 2)))%Z).
    { rewrite <- (Qfloor_Z (- b * scale)). apply Qfloor_resp_le.
      rewrite inject_Z_mult, inject_Z_opp. nra. }
    assert (H2 : (Qfloor (- x * inject_Z scale + (1 # 2)) <= - a * scale)%Z).
    { assert (H : (Qfloor (- x * inject_Z scale + (1 # 2)) < - a * scale + 1)%Z);
        [| lia].
      rewrite Zlt_Qlt. eapply Qle_lt_trans; [apply Qfloor_le |].
      rewrite inject_Z_plus, inject_Z_mult, inject_Z_opp.
      change (inject_Z 1) with 1. nra. }
    rewrite Zle_Qle in H1, H2. rewrite !inject_Z_mult, !inject_Z_opp in H1, H2.
    set (F := inject_Z (Qfloor (- x * inject_Z scale + (1 # 2)))) in H1, H2 |- *; idtac.
    assert (F / inject_Z scale <= - inject_Z a)
      by (apply Qle_shift_div_r; [exact Hq | exact H2]).
    assert (- inject_Z b <= F / inject_Z scale)
      by (apply Qle_shift_div_l; [exact Hq | exact H1]).
    split; lra.
  - assert (H1 : (a * scale <= Qfloor (x * inject_Z scale + (1 # 2)))%Z).
    { rewrite <- (Qfloor_Z (a * scale)). apply Qfloor_resp_le.
      rewrite inject_Z_mult. nra. }
    assert (H2 : (Qfloor (x * inject_Z scale + (1 # 2)) <= b * scale)%Z).
    { assert (H : (Qfloor (x * inject_Z scale + (1 # 2)) < b * scale + 1)%Z);
        [| lia].
      rewrite Zlt_Qlt. eapply Qle_lt_trans; [apply Qfloor_le |].
      rewrite inject_Z_plus, inject_Z_mult.
      change (inject_Z 1) with 1. nra. }
    rewrite Zle_Qle in H1, H2. rewrite !inject_Z_mult in H1, H2.
    split.
    + apply Qle_shift_div_l; [exact Hq | exact H1].
    + apply Qle_shift_div_r; [exact Hq | exact H2].
Qed.

Lemma stored_between (a b : Z) (x : Q) (digits : nat) :
  small a -> small b ->
  inject_Z a <= x -> x <= inject_Z b ->
  inject_Z a <= parseFloat (toFixed x digits)
  /\ parseFloat (toFixed x digits) <= inject_Z b.
Proof.
  intros Sa Sb Ha Hb. destruct (toFixed_between a b x digits Ha Hb).
  now apply rnd_between.
Qed.

Lemma system_points_in_box (system : Processor.weatherSystem)
    (radarPoints : list Processor.radarPoint) (e : Env) :
  Forall radarPoint_in_box radarPoints ->
  Forall radarPoint_in_box (fst (Processor.system_points system radarPoints e)).
Proof.
  intros Hm. unfold Processor.system_points.
  apply for_range_ind; [| exact Hm].
  intros i a e' Hi Ha. unfold bind at 1. draw patternType.
  assert (Hkeep : forall (c : State (Q * Q)) (e1 : Env),
    Forall radarPoint_in_box
      (fst ((position <- c ;;
        let '(lat, lon) := position in
        r <- Math_random ;;
        let randomLat := lat +. (r -. (1 # 2)) *. 5 in
        r <- Math_random ;;
        let randomLon := lon +. (r -. (1 # 2)) *. 5 in
        let distanceFromCenter :=
          Math_sqrt (Math_pow2 (randomLat -. Processor.centerLat system)
                     +. Math_pow2 (randomLon -. Processor.centerLon system)) in
        let baseReflectivity :=
          Processor.intensity system
          *. (1 -. distanceFromCenter /. Processor.size system) in
        r <- Math_random ;;
        let reflectivity := Math_max 5 (baseReflectivity +. (r -. (1 # 2)) *. 10) in
        if Num.Qlt_bool 10 reflectivity
           && Qle_bool 24 randomLat && Qle_bool randomLat 49
           && Qle_bool (- 125) randomLon && Qle_bool randomLon (- 66)
        then
          ret (a ++
            [ {| Processor.lat := parseFloat (toFixed randomLat 3);
                 Processor.lon := parseFloat (toFixed randomLon 3);
                 Processor.reflectivity := parseFloat (toFixed reflectivity 1);
                 Processor.precipitation :=
                   Processor.reflectivityToPrecipitation (Fin reflectivity) |} ])
        else ret a) e1))).
  { intros c e1. unfold bind. destruct (c e1) as [[lat lon] e2].
    destruct (Math_random e2) as [r1 e3]. destruct (Math_random e3) as [r2 e4].
    destruct (Math_random e4) as [r3 e5].
    match goal with |- context [if ?c then _ else _] => destruct c eqn:Hc end;
      unfold ret; cbn [fst]; [| exact Ha].
    repeat (apply andb_true_iff in Hc; destruct Hc as [Hc ?]).
    breakpoints.
    apply Forall_app. split; [exact Ha |]. constructor; [| constructor].
    unfold radarPoint_in_box, in_box. cbn [Processor.lat Processor.lon].
    match goal with
    | H1 : 24 <= ?x, H2 : ?x <= 49, H3 : - 125 <= ?y, H4 : ?y <= - 66 |- _ =>
        destruct (stored_between 24 49 x 3) as [? ?];
          [small_side | small_side | exact H1 | exact H2 |];
        destruct (stored_between (- 125) (- 66) y 3) as [? ?];
          [small_side | small_side | exact H3 | exact H4 |]
    end.
    tauto. }
  apply Hkeep.
Qed.

Lemma createMockRadarData_points_in_box (e : Env) :
  Forall radarPoint_in_box (fst (Processor.createMockRadarData_points e)).
Proof.
  unfold Processor.createMockRadarData_points, bind.
  destruct (Processor.generateWeatherSystems e) as [systems e1].
  apply forEach_ind; [| constructor].
  intros system a e' _ Ha. now apply system_points_in_box.
Qed.
End Regional.

(** ** The paths of the scraper *)

Section ScraperPaths.
Context {RT : Runtime}.

Lemma station_point_classified (p : point) : station_point p -> classified p.
Proof. intros (_ & H & _). exact H. Qed.

Lemma convert_classified (now : Env) (fd : fieldData) (name : string) :
  Forall classified (Scraper.convertGRIB2ToRadarPoints now fd name).
Proof.
  apply Forall_forall. intros p Hp. apply in_convert in Hp.
  destruct Hp as (i & _ & Hp). apply decoded_at_inv in Hp.
  destruct Hp as (v & _ & _ & _ & ->). eexists. split; reflexivity.
Qed.

(** What holds of every point of the decoder holds of every point the
    loop over the entries returns, and of every point of the primary
    strategy. *)
Lemma extract_fields_Forall (P : point -> Prop) (now : Env) :
  (forall fd name, Forall P (Scraper.convertGRIB2ToRadarPoints now fd name)) ->
  forall (data : list (string * jsonEntry)) (radarPoints points : list point),
    Forall P radarPoints ->
    Scraper.extract_fields now data radarPoints = Returned points ->
    Forall P points.
Proof.
  intros HP. induction data as [|[name [|fd]] data IH]; intros acc points Hacc;
    cbn [Scraper.extract_fields].
  - intros [= <-]. exact Hacc.
  - discriminate.
  - destruct (json_values fd) as [vs|], (json_latitudes fd) as [lats|],
      (json_longitudes fd) as [lons|]; try (apply IH; exact Hacc).
    destruct (Scraper.spread vs); [| discriminate].
    match goal with
    | |- context [Scraper.push_spread acc ?ps] =>
        destruct (push_spread_cases acc ps) as [[_ ->] | [_ ->]]; [| discriminate]
    end.
    apply IH. apply Forall_app. split; [exact Hacc | apply HP].
Qed.

Lemma getMRMSNcepData_Forall (P : point -> Prop) :
  (forall now fd name, Forall P (Scraper.convertGRIB2ToRadarPoints now fd name)) ->
  forall (e e' : Env) (points : list point),
    Scraper.getMRMSNcepData e = (Returned points, e') -> Forall P points.
Proof.
  intros HP e e' points.
  unfold Scraper.getMRMSNcepData, Scraper.parseMRMSDirectory,
    Scraper.downloadAndParseGRIB2.
  destruct (axios_get_listing e) as [[html | err] e1]; [| discriminate].
  destruct (0 <? List.length (listing_files html))%nat;
    [| intros [= <- _]; constructor].
  match goal with
  | |- context [download_and_decode ?f e1] =>
      destruct (download_and_decode f e1) as [[data | err] e2];
        [destruct (Scraper.extract_fields e2 data []) as [radarPoints | err] eqn:E;
           [destruct (fs_remove f e2) as [[u | err] e3] |] |]
  end.
  2-4: intros [= <- _]; constructor.
  destruct (push_spread_cases (@nil point) radarPoints) as [[_ ->] | [_ ->]];
    intros [= <- _]; [| constructor].
  cbn [app]. eapply extract_fields_Forall; [apply HP | constructor | exact E].
Qed.

Lemma getMRMSNcepData_classified (e e' : Env) (points : list point) :
  Scraper.getMRMSNcepData e = (Returned points, e') -> Forall classified points.
Proof. apply getMRMSNcepData_Forall. intros. apply convert_classified. Qed.

Lemma getMRMSViewerData_empty (e e' : Env) (points : list point) :
  Scraper.getMRMSViewerData e = (Returned points, e') -> points = [].
Proof.
  unfold Scraper.getMRMSViewerData.
  destruct (axios_get_products e) as [[products | err] e1]; [| discriminate].
  now intros [= <- _].
Qed.

(** What the chain returns, if each strategy returns points of one kind. *)
Lemma chain_returns (P : point -> Prop)
    (ncep viewer nws : Env -> outcome (list point) * Env) :
  (forall e e' points, ncep e = (Returned points, e') -> Forall P points) ->
  (forall e e' points, viewer e = (Returned points, e') -> Forall P points) ->
  (forall e e' points, nws e = (Returned points, e') -> Forall P points) ->
  (forall e, Forall P (fst (Scraper.getEnhancedMockData e))) ->
  forall w : world,
    exists (points : list point) (w' : world),
      Scraper.getLatestRadarData_with ncep viewer nws w = (Returned points, w') /\
      points <> [] /\ Forall P points.
Proof.
  intros H1 H2 H3 H4 w. rewrite chain_refines_spec. cbn [AcquisitionPipeline_spec].
  assert (Hmock : forall w0 : world,
    exists points w',
      (let (mockData, e') := Scraper.getEnhancedMockData (env w0) in
       (Returned mockData, after w0 GetEnhancedMockData e')) = (Returned points, w')
      /\ points <> [] /\ Forall P points).
  { intros w0. pose proof (H4 (env w0)) as HP.
    pose proof (getEnhancedMockData_length (env w0)) as HL.
    destruct (Scraper.getEnhancedMockData (env w0)) as [mock e']. cbn [fst] in HP, HL.
    eexists _, _. split; [reflexivity |]. split; [| exact HP].
    intros ->. cbn in HL. lia. }
  destruct (ncep (env w)) as [[[|p1 l1] | err1] e1] eqn:E1;
    [| eexists _, _; split; [reflexivity |]; split; [discriminate | eauto] |];
    (destruct (viewer (env (after w GetMRMSNcepData e1)))
       as [[[|p2 l2] | err2] e2] eqn:E2;
     [| eexists _, _; split; [reflexivity |]; split; [discriminate | eauto] |]);
    (match goal with
     | |- context [nws ?e] =>
         destruct (nws e) as [[[|p3 l3] | err3] e3] eqn:E3;
         [| eexists _, _; split; [reflexivity |]; split; [discriminate | eauto] |]
     end);
    apply Hmock.
Qed.

Lemma getLatestRadarData_returns (w : world) :
  exists (points : list point) (w' : world),
    Scraper.getLatestRadarData w = (Returned points, w') /\
    points <> [] /\ Forall classified points.
Proof.
  apply chain_returns.
  - apply getMRMSNcepData_classified.
  - intros e e' points H. apply getMRMSViewerData_empty in H. subst. constructor.
  - intros e e' points H. destruct (getNWSRadarData_points e) as (l & e0 & E & Hl).
    rewrite H in E. injection E as -> _.
    eapply Forall_impl; [| exact Hl]. apply station_point_classified.
  - intros e. eapply Forall_impl; [| apply getEnhancedMockData_points].
    apply station_point_classified.
Qed.
End ScraperPaths.

Lemma station_point_in_box (p : point) : station_point p -> point_in_box p.
Proof. intros (H & _). exact H. Qed.

(** C3 (as amended).  The points of the synthetic fallback and of the
    station-derived strategy lie inside the continental box by
    construction, the viewer strategy returns no point, and the regional
    generator of the processor keeps only points inside the box.  The grid
    decoder filters nothing: each of its points carries the longitude and
    the latitude of its sample as they are. *)
Theorem points_in_box_by_construction :
  forall (RT : Runtime) (e : Env),
    Forall point_in_box (fst (Scraper.getEnhancedMockData e)) /\
    (exists (points : list point) (e' : Env),
       Scraper.getNWSRadarData e = (Returned points, e') /\
       Forall point_in_box points) /\
    match fst (Scraper.getMRMSViewerData e) with
    | Returned points => points = []
    | Thrown _ => True
    end /\
    Forall radarPoint_in_box (fst (Processor.createMockRadarData_points e)) /\
    forall (fieldData : fieldData) (fieldName : string),
      Forall
        (fun p : point =>
           exists i : nat,
             (i < List.length (values fieldData))%nat /\
             longitude p = nth i (longitudes fieldData) Undefined /\
             latitude p = nth i (latitudes fieldData) Undefined)
        (Scraper.convertGRIB2ToRadarPoints e fieldData fieldName).
Proof.
  intros RT e. repeat split.
  - eapply Forall_impl; [| apply getEnhancedMockData_points].
    apply station_point_in_box.
  - destruct (getNWSRadarData_points e) as (points & e' & E & H).
    exists points, e'. split; [exact E |].
    eapply Forall_impl; [| exact H]. apply station_point_in_box.
  - destruct (Scraper.getMRMSViewerData e) as [[points | err] e'] eqn:E; [| exact I].
    cbn [fst]. eapply getMRMSViewerData_empty. exact E.
  - apply createMockRadarData_points_in_box.
  - intros fd name. apply Forall_forall. intros p Hp.
    apply in_convert in Hp. destruct Hp as (i & Hi & Hp).
    apply decoded_at_inv in Hp. destruct Hp as (v & _ & _ & _ & ->).
    exists i. repeat split. exact Hi.
Qed.

(** C3 as stated fails: when the primary source serves a grid with a
    sample at 55 N, 130 W, the pipeline returns that point. *)
Lemma pipeline_returns_point_outside_box :
  let far := decoded_point (RT := Simulation.runtime) (serving corner_grid)
               "BREF_1HR_MAX" (Num (Fin (- 130))) (Num 55) 30 moderate "#ffff00" in
  Scraper.getLatestRadarData (RT := Simulation.runtime) (start (serving corner_grid))
  = (Returned [far],
     {| env := serving corner_grid; invoked := [GetMRMSNcepData] |}) /\
  ~ point_in_box far.
Proof.
  split.
  - vm_compute. reflexivity.
  - intros (la & lo & Hc & Hla & Hla' & _). cbn in Hc.
    injection Hc as <- <-. revert Hla'. cbv. intros H. now apply H.
Qed.

(** C4.  For any three fetch strategies, [getLatestRadarData] is the state
    machine of the specification: it goes on to the next strategy only when
    the current one throws or returns an empty sequence.  In particular,
    when the primary strategy returns a non-empty list, that list is the
    result and [getMRMSNcepData] is the only method invoked: neither the
    viewer strategy, nor the station strategy, nor the synthetic generator
    runs. *)
Theorem fallback_chain_short_circuits :
  forall (RT : Runtime) (ncep viewer nws : Env -> outcome (list point) * Env)
         (w : world),
    Scraper.getLatestRadarData_with ncep viewer nws w =
      AcquisitionPipeline_spec
        [ (GetMRMSNcepData, ncep); (GetMRMSViewerData, viewer);
          (GetNWSRadarData, nws) ] w /\
    forall (points : list point) (e' : Env),
      ncep (env w) = (Returned points, e') ->
      points <> [] ->
      Scraper.getLatestRadarData_with ncep viewer nws w =
        (Returned points,
         {| env := e'; invoked := invoked w ++ [GetMRMSNcepData] |}).
Proof.
  intros RT ncep viewer nws w. split.
  - apply chain_refines_spec.
  - intros points e'. apply chain_short_circuit.
Qed.

(** The primary source serves the grid of the end-to-end scenario: its three
    points are returned, after one invocation. *)
Lemma fallback_chain_short_circuits_witness :
  let w := start (RT := Simulation.runtime) (serving scenario_grid) in
  let points :=
    [ decoded_point (env w) "BREF_1HR_MAX" (Num (Fin (- 100))) (Num 30) 5 light "#00ff00";
      decoded_point (env w) "BREF_1HR_MAX" (Num (Fin (- 99))) (Num 31) 15 light "#00ff00";
      decoded_point (env w) "BREF_1HR_MAX" (Num (Fin (- 98))) (Num 32) 25 moderate "#ffff00" ] in
  Scraper.getMRMSNcepData (env w) = (Returned points, env w) /\
  points <> [] /\
  Scraper.getLatestRadarData w =
    (Returned points, {| env := env w; invoked := [GetMRMSNcepData] |}).
Proof.
  intros w points.
  assert (E : Scraper.getMRMSNcepData (env w) = (Returned points, env w))
    by (vm_compute; reflexivity).
  assert (Hne : points <> []) by discriminate.
  split; [exact E |]. split; [exact Hne |].
  exact (proj2 (fallback_chain_short_circuits Simulation.runtime
                  Scraper.getMRMSNcepData Scraper.getMRMSViewerData
                  Scraper.getNWSRadarData w) points (env w) E Hne).
Defined.

(** C5 (as amended).  Whatever the three fetch strategies do,
    [getLatestRadarData] returns a non-empty sequence and does not throw.
    If the three strategies throw, it returns the points of
    [getEnhancedMockData], after invoking the four methods in order: they
    are between 50 and 250, and each has a [station] and no [source]
    property. *)
Theorem fallback_returns_station_points :
  forall (RT : Runtime) (ncep viewer nws : Env -> outcome (list point) * Env)
         (w : world),
    (exists (points : list point) (w' : world),
       Scraper.getLatestRadarData_with ncep viewer nws w = (Returned points, w') /\
       points <> []) /\
    forall (err1 err2 err3 : error) (e1 e2 e3 : Env),
      ncep (env w) = (Thrown err1, e1) ->
      viewer e1 = (Thrown err2, e2) ->
      nws e2 = (Thrown err3, e3) ->
      exists (points : list point) (w' : world),
        Scraper.getLatestRadarData_with ncep viewer nws w = (Returned points, w') /\
        points = fst (Scraper.getEnhancedMockData e3) /\
        invoked w' = invoked w ++ [GetMRMSNcepData; GetMRMSViewerData;
                                   GetNWSRadarData; GetEnhancedMockData] /\
        (50 <= List.length points <= 250)%nat /\
        Forall (fun p : point => source p = None /\ station p <> None) points.
Proof.
  intros RT ncep viewer nws w. split.
  - destruct (chain_returns (fun _ => True) ncep viewer nws) with (w := w)
      as (points & w' & E & Hne & _);
      try (intros; apply Forall_forall; intros; exact I).
    exists points, w'. split; assumption.
  - intros err1 err2 err3 e1 e2 e3 H1 H2 H3.
    eexists _, _. split; [eapply chain_total_fallback; eassumption |].
    split; [reflexivity |]. split; [reflexivity |].
    split; [apply getEnhancedMockData_length |].
    eapply Forall_impl; [| apply getEnhancedMockData_points].
    intros p (_ & _ & Hs & Ht). split; assumption.
Qed.

(** Three strategies that throw, every source being unreachable. *)
Lemma fallback_returns_station_points_witness :
  exists (points : list point) (w' : world),
    Scraper.getLatestRadarData_with (RT := Simulation.runtime)
      failing failing failing (start offline) = (Returned points, w') /\
    points = fst (Scraper.getEnhancedMockData offline) /\
    invoked w' = [GetMRMSNcepData; GetMRMSViewerData;
                  GetNWSRadarData; GetEnhancedMockData] /\
    (50 <= List.length points <= 250)%nat /\
    Forall (fun p : point => source p = None /\ station p <> None) points.
Proof.
  exact (proj2 (fallback_returns_station_points Simulation.runtime
                  failing failing failing (start offline))
           _ _ _ offline offline offline eq_refl eq_refl eq_refl).
Defined.

(** C5 as stated fails: with three strategies that throw, the points
    returned are not all tagged [source: synthetic]. *)
Lemma fallback_points_are_not_tagged_synthetic :
  exists (points : list point) (w' : world),
    Scraper.getLatestRadarData_with (RT := Simulation.runtime)
      failing failing failing (start offline) = (Returned points, w') /\
    ~ Forall (fun p : point => source p = Some "synthetic") points.
Proof.
  destruct (chain_returns (RT := Simulation.runtime) station_point
              failing failing failing) with (w := start offline)
    as (points & w' & E & Hne & Hp); try discriminate.
  - apply getEnhancedMockData_points.
  - exists points, w'. split; [exact E |]. intros H.
    destruct points as [|p points]; [now apply Hne |].
    inversion H as [|? ? Hs _]; subst. inversion Hp as [|? ? Hq _]; subst.
    destruct Hq as (_ & _ & Hnone & _). congruence.
Qed.

(** With [Math.random] yielding 0 every time, every candidate point of the
    regional generator falls south of the box and its list stays empty. *)
Example regional_points_may_be_empty :
  fst (Processor.createMockRadarData_points (RT := Simulation.runtime) offline) = [].
Proof. vm_compute. reflexivity. Qed.

(** C6, where the code departs from it.  On every invocation the regional
    generator [createMockRadarData] throws a ReferenceError, for the
    undeclared identifier [minLat] in the bounds of its result.  The
    per-station generator [getEnhancedMockData] cannot throw and returns at
    least 50 points. *)
Theorem regional_generator_throws :
  forall (RT : Runtime) (e : Env),
    fst (Processor.createMockRadarData e) = Thrown (ReferenceError "minLat") /\
    (50 <= List.length (fst (Scraper.getEnhancedMockData e)))%nat.
Proof.
  intros RT e. split.
  - apply createMockRadarData_throws.
  - apply getEnhancedMockData_length.
Qed.

(** C9.  For every reflectivity, NaN and the values below 10 included,
    [classifyPrecipitation] does not return none and
    [getColorForReflectivity] does not return #ffffff; the two results are
    one of the four pairs light/#00ff00, moderate/#ffff00, heavy/#ff8000,
    extreme/#ff0000, the pair of the one row of the table with the
    breakpoints 20, 35 and 45 that applies.  Hence every point of the grid
    decoder, of the station-derived strategy and of the synthetic fallback,
    and every point [getLatestRadarData] returns, is labeled as
    precipitating. *)
Theorem three_bucket_classifier_never_none :
  forall (RT : Runtime) (r : number),
    Scraper.classifyPrecipitation r <> none /\
    Scraper.getColorForReflectivity r <> "#ffffff" /\
    In (Scraper.classifyPrecipitation r, Scraper.getColorForReflectivity r)
       [ (light, "#00ff00"); (moderate, "#ffff00"); (heavy, "#ff8000");
         (extreme, "#ff0000") ] /\
    (Num.isNaN r = false ->
     map snd (filter (fun row => fst row r) scraper_table) =
       [ (Scraper.classifyPrecipitation r, Scraper.getColorForReflectivity r) ]) /\
    (forall (now : Env) (fieldData : fieldData) (fieldName : string),
       Forall precipitating
         (Scraper.convertGRIB2ToRadarPoints now fieldData fieldName)) /\
    (forall e : Env,
       exists (points : list point) (e' : Env),
         Scraper.getNWSRadarData e = (Returned points, e') /\
         Forall precipitating points) /\
    (forall e : Env, Forall precipitating (fst (Scraper.getEnhancedMockData e))) /\
    (forall w : world,
       exists (points : list point) (w' : world),
         Scraper.getLatestRadarData w = (Returned points, w') /\
         Forall precipitating points).
Proof.
  intros RT r.
  assert (Hc : classified
                 {| coordinates := (Null, Null); reflectivity := r;
                    precipitation := Scraper.classifyPrecipitation r;
                    color := Scraper.getColorForReflectivity r;
                    source := None; field := None; station := None;
                    timestamp := "" |}) by (exists r; split; reflexivity).
  apply classified_precipitating in Hc. destruct Hc as [Hp Hcol].
  split; [exact Hp |]. split; [exact Hcol |].
  split; [apply (scraper_pairs r) |].
  split; [apply scraper_rows |].
  split; [| split; [| split]].
  - intros now fd name. eapply Forall_impl; [| apply convert_classified].
    apply classified_precipitating.
  - intros e. destruct (getNWSRadarData_points e) as (points & e' & E & H).
    exists points, e'. split; [exact E |].
    eapply Forall_impl; [| exact H].
    intros p Hsp. apply classified_precipitating, station_point_classified, Hsp.
  - intros e. eapply Forall_impl; [| apply getEnhancedMockData_points].
    intros p Hsp. apply classified_precipitating, station_point_classified, Hsp.
  - intros w. destruct (getLatestRadarData_returns w) as (points & w' & E & _ & H).
    exists points, w'. split; [exact E |].
    eapply Forall_impl; [| exact H]. apply classified_precipitating.
Qed.

Section StationRange.
Context {RT : Runtime}.

Lemma literal_monotone (p q : Q) : p <= q -> literal p <= literal q.
Proof. apply rnd_monotone. Qed.

Lemma stations_as_listed :
  Forall (fun s : radarStation =>
            literal (293 # 10) <= lat s /\ lat s <= literal (353 # 10) /\
            - literal (1003 # 10) <= lon s /\ lon s <= - literal (898 # 10))
         Scraper.getRadarStations.
Proof.
  assert (H98a : literal (898 # 10) <= 98).
  { rewrite <- (rnd_integer 98) by small_side. apply rnd_monotone. cbv. discriminate. }
  assert (H98b : 98 <= literal (1003 # 10)).
  { rewrite <- (rnd_integer 98) by small_side. apply rnd_monotone. cbv. discriminate. }
  unfold Scraper.getRadarStations.
  repeat (apply Forall_cons;
    [ cbn [lat lon];
      repeat match goal with
      | |- _ /\ _ => split
      | |- literal _ <= literal _ => apply literal_monotone; cbv; discriminate
      | |- - literal _ <= - literal _ =>
          apply Qopp_le_compat, literal_monotone; cbv; discriminate
      | |- - literal _ <= - 98 => apply (Qopp_le_compat 98), H98b
      | |- - 98 <= - literal _ => apply (Qopp_le_compat _ 98), H98a
      end | ]).
  apply Forall_nil.
Qed.
End StationRange.

(** C10.  The stations lie between the latitudes 29.3 and 35.3 and the
    longitudes -100.3 and -89.8, and every point of [getEnhancedMockData]
    has a latitude within [24, 49] and a longitude within [-125, -66],
    although no bounds are tested. *)
Theorem synthetic_fallback_stays_in_box :
  forall (RT : Runtime) (e : Env),
    Forall (fun s : radarStation =>
              literal (293 # 10) <= lat s /\ lat s <= literal (353 # 10) /\
              - literal (1003 # 10) <= lon s /\ lon s <= - literal (898 # 10))
           Scraper.getRadarStations /\
    Forall point_in_box (fst (Scraper.getEnhancedMockData e)).
Proof.
  intros RT e. split.
  - apply stations_as_listed.
  - eapply Forall_impl; [| apply getEnhancedMockData_points].
    apply station_point_in_box.
Qed.

(** C8 as stated fails: a sample whose latitude is [null] is emitted. *)
Lemma decoder_emits_point_without_latitude :
  ~ Forall finite_point
      (Scraper.convertGRIB2ToRadarPoints (RT := Simulation.runtime) offline
         unlocated_field "BREF_1HR_MAX").
Proof.
  rewrite convert_sampled. intros H. inversion H as [|p l Hp _]; subst.
  destruct Hp as (Hlat & _). exact Hlat.
Qed.

(** A reflectivity-class field passes [Infinity] through. *)
Example decoder_passes_infinite_reflectivity :
  map reflectivity
      (Scraper.convertGRIB2ToRadarPoints (RT := Simulation.runtime) offline
         saturated_field "BREF_1HR_MAX")
  = [PosInf].
Proof. rewrite convert_sampled. reflexivity. Qed.

(** With every source unreachable, the chain tries the three strategies and
    ends in the synthetic fallback. *)
Example offline_run_invokes_all :
  invoked (snd (Scraper.getLatestRadarData (RT := Simulation.runtime) (start offline)))
  = [GetMRMSNcepData; GetMRMSViewerData; GetNWSRadarData; GetEnhancedMockData].
Proof. vm_compute. reflexivity. Qed.

Lemma ceil_div_one (n : nat) : ceil_div n 1 = n.
Proof. unfold ceil_div. rewrite Nat.add_sub. apply Nat.div_1_r. Qed.

Lemma stride_bound (n : nat) :
  (ceil_div n (Nat.max 1 (n / 1000)) <= Nat.min n 1999)%nat.
Proof.
  destruct (Nat.lt_ge_cases n 1000) as [H | H].
  - rewrite (Nat.div_small n 1000) by exact H. cbn [Nat.max].
    rewrite ceil_div_one. lia.
  - assert (Hq : (1 <= n / 1000)%nat).
    { apply Nat.div_le_lower_bound; lia. }
    rewrite Nat.max_r by exact Hq.
    set (q := (n / 1000)%nat) in Hq |- *; idtac.
    assert (Hn : (n < 1000 * (q + 1))%nat).
    { subst q. pose proof (Nat.div_mod_eq n 1000) as E.
      pose proof (Nat.mod_upper_bound n 1000 ltac:(lia)). lia. }
    unfold ceil_div. apply Nat.min_glb.
    + apply Nat.Div0.div_le_upper_bound. nia.
    + assert ((n + q - 1) / q < 2000)%nat; [| lia].
      apply Nat.Div0.div_lt_upper_bound. nia.
Qed.

Lemma convert_length {RT : Runtime} (now : Env) (fd : fieldData) (name : string) :
  (List.length (Scraper.convertGRIB2ToRadarPoints now fd name) <= 1999)%nat.
Proof.
  rewrite convert_sampled.
  etransitivity; [apply flat_map_kept_length |].
  unfold sampled_indices. rewrite length_map, length_seq.
  etransitivity; [apply stride_bound |]. apply Nat.le_min_r.
Qed.

(** X1.  Whatever the field, the decoder emits at most 1999 points, and
    never more than the field has values (so none for an empty field). *)
Theorem decoder_emits_at_most_1999 :
  forall (RT : Runtime) (now : Env) (fieldData : fieldData) (fieldName : string),
    (List.length (Scraper.convertGRIB2ToRadarPoints now fieldData fieldName)
     <= Nat.min (List.length (values fieldData)) 1999)%nat.
Proof.
  intros RT now fd name. rewrite convert_sampled.
  etransitivity; [apply flat_map_kept_length |].
  unfold sampled_indices. rewrite length_map, length_seq.
  apply stride_bound.
Qed.

(** X2.  A field of fewer than 2000 values is not thinned: the decoder
    emits, in order, the point of every index whose value it keeps. *)
Theorem decoder_keeps_every_sample_below_2000 :
  forall (RT : Runtime) (now : Env) (fieldData : fieldData) (fieldName : string),
    (List.length (values fieldData) < 2000)%nat ->
    Scraper.convertGRIB2ToRadarPoints now fieldData fieldName =
    flat_map (fun i => kept (decoded_at now fieldData fieldName i))
             (seq 0 (List.length (values fieldData))).
Proof.
  intros RT now fd name H. rewrite convert_sampled.
  unfold sampled_indices, Scraper.sampleRate_of.
  assert (E : (List.length (values fd) / 1000 <= 1)%nat).
  { assert (List.length (values fd) / 1000 < 2)%nat; [| lia].
    apply Nat.Div0.div_lt_upper_bound. lia. }
  replace (Nat.max 1 (List.length (values fd) / 1000)) with 1%nat by lia.
  rewrite ceil_div_one. f_equal.
  rewrite <- (map_id (seq 0 (List.length (values fd)))) at 2.
  apply map_ext. intros k. lia.
Qed.

Section Blocks.
Context {RT : Runtime}.

(** A loop whose every turn pushes one element with a property pushes a
    block of [count] such elements. *)
Lemma for_range_block {B} (Q : B -> Prop) (body : nat -> list B -> State (list B))
    (count : nat) :
  forall (start : nat) (acc : list B) (e : Env),
    (forall i a e', (start <= i < start + count)%nat ->
       exists b, fst (body i a e') = a ++ [b] /\ Q b) ->
    exists block : list B,
      fst (for_range start count body acc e) = acc ++ block /\
      List.length block = count /\ Forall Q block.
Proof.
  induction count as [|count IH]; intros start acc e Hbody; cbn.
  - exists []. rewrite app_nil_r. repeat split. constructor.
  - unfold bind. destruct (Hbody start acc e ltac:(lia)) as (b & Eb & Hb).
    destruct (body start acc e) as [acc' e']. cbn [fst] in Eb. subst acc'.
    destruct (IH (S start) (acc ++ [b]) e') as (block & E & Hlen & HQ).
    { intros i a e0 Hi. apply Hbody. lia. }
    exists (b :: block). rewrite E, <- app_assoc. cbn.
    repeat split; [lia | now constructor].
Qed.

Lemma clamp_classified (L H x : Q) :
  L <= x -> L <= H -> x <= H \/ 45 <= H ->
  exists y : Q,
    Num.max L (Num.min H x) = Fin y /\ L <= y /\ y <= H /\
    Scraper.classifyPrecipitation (Fin x) = Scraper.classifyPrecipitation (Fin y) /\
    Scraper.getColorForReflectivity (Fin x) = Scraper.getColorForReflectivity (Fin y).
Proof.
  intros HL HLH Hx.
  unfold Num.max, Num.min, Num.lt, Num.Qlt_bool,
    Scraper.classifyPrecipitation, Scraper.getColorForReflectivity.
  cbn -[Qle_bool].
  destruct (Qle_bool H x) eqn:E1; cbn -[Qle_bool];
    match goal with
    | |- context [Qle_bool ?a L] => destruct (Qle_bool a L) eqn:E2
    end; cbn -[Qle_bool]; eexists; (split; [reflexivity |]);
    unfold Num.lt, Num.Qlt_bool;
    repeat match goal with
    | |- context [Qle_bool ?a ?b] => destruct (Qle_bool a b) eqn:?
    end; cbn; breakpoints;
    repeat split; try reflexivity; try lra; exfalso; lra.
Qed.
End Blocks.

Section SyntheticBlocks.
Context {RT : Runtime}.

Lemma new_synthetic_point (s : radarStation) (L H x : Q) (lon lat : value)
    (now : string) :
  L <= x -> L <= H -> x <= H \/ 45 <= H -> 10 <= L -> H <= 50 ->
  synthetic_for s
    {| coordinates := (lon, lat);
       reflectivity := Num.max L (Num.min H x);
       precipitation := Scraper.classifyPrecipitation x;
       color := Scraper.getColorForReflectivity x;
       source := None;
       field := None;
       station := Some (id s);
       timestamp := now |}.
Proof.
  intros H1 H2 H3 H4 H5.
  destruct (clamp_classified L H x H1 H2 H3) as (y & Ey & Hy1 & Hy2 & Hp & Hc).
  repeat split; cbn [station source field precipitation color reflectivity];
    rewrite ?Ey; try assumption.
  exists y. repeat split; lra.
Qed.

Ltac count_bounds r k base :=
  match goal with
  | Hr : 0 <= r /\ r < 1 |- _ =>
      let H := fresh "Hcount" in
      pose proof (count_range r k base ltac:(lia) ltac:(cbv; discriminate)
                    (proj1 Hr) (proj2 Hr)) as H;
      unfold inject_Z in H
  end.

Lemma generateThunderstormCell_block (mockData : list point) (s : radarStation)
    (e : Env) :
  exists block : list point,
    fst (Scraper.generateThunderstormCell mockData s e) = mockData ++ block /\
    (5 <= List.length block <= 13)%nat /\ Forall (synthetic_for s) block.
Proof.
  unfold Scraper.generateThunderstormCell, bind.
  draw r0. draw r1. count_bounds r0 8%Z 5%Z.
  destruct (fmul_nonneg 1 20 r1 20) as [? ?];
    [small_side | numerals; lra .. |].
  destruct (fadd_between 30 50 30 (r1 *. 20)) as [? ?];
    [small_side | small_side | numerals; lra .. |].
  match goal with
  | |- context [for_range 0 ?c ?b mockData ?e1] =>
      destruct (for_range_block (synthetic_for s) b c 0 mockData e1)
        as (block & E & Hlen & HQ)
  end.
  - intros i a e' Hi. unfold bind, Scraper.clock, ret.
    draw r2. draw r3. cbn [fst]. eexists. split; [reflexivity |].
    destruct (fsub_between (- 1) 1 r3 (1 # 2)) as [? ?];
      [small_side | small_side | numerals; lra .. |].
    destruct (fmul_magnitude 1 10 (r3 -. (1 # 2)) 10) as [? ?];
      [small_side | numerals; lra .. |].
    destruct (fadd_between 20 60 (30 +. r1 *. 20) ((r3 -. (1 # 2)) *. 10))
      as [? ?]; [small_side | small_side | numerals; lra .. |].
    apply new_synthetic_point; numerals;
      first [lra | right; lra | left; lra].
  - exists block. split; [exact E |]. split; [lia | exact HQ].
Qed.

Lemma generateWeatherFront_block (mockData : list point) (s : radarStation)
    (e : Env) :
  exists block : list point,
    fst (Scraper.generateWeatherFront mockData s e) = mockData ++ block /\
    (10 <= List.length block <= 25)%nat /\ Forall (synthetic_for s) block.
Proof.
  unfold Scraper.generateWeatherFront, bind.
  draw r0. draw r1. draw r2. count_bounds r0 15%Z 10%Z.
  match goal with
  | |- context [for_range 0 ?c ?b mockData ?e1] =>
      destruct (for_range_block (synthetic_for s) b c 0 mockData e1)
        as (block & E & Hlen & HQ)
  end.
  - intros i a e' Hi. unfold bind, Scraper.clock, ret.
    draw r3. cbn [fst]. eexists. split; [reflexivity |].
    destruct (fmul_nonneg 1 15 r3 15) as [? ?];
      [small_side | numerals; lra .. |].
    destruct (fadd_between 25 40 25 (r3 *. 15)) as [? ?];
      [small_side | small_side | numerals; lra .. |].
    apply new_synthetic_point; numerals;
      first [lra | right; lra | left; lra].
  - exists block. split; [exact E |]. split; [lia | exact HQ].
Qed.

Lemma generateScatteredShowers_block (mockData : list point) (s : radarStation)
    (e : Env) :
  exists block : list point,
    fst (Scraper.generateScatteredShowers mockData s e) = mockData ++ block /\
    (8 <= List.length block <= 20)%nat /\ Forall (synthetic_for s) block.
Proof.
  unfold Scraper.generateScatteredShowers, bind.
  draw r0. count_bounds r0 12%Z 8%Z.
  match goal with
  | |- context [for_range 0 ?c ?b mockData ?e1] =>
      destruct (for_range_block (synthetic_for s) b c 0 mockData e1)
        as (block & E & Hlen & HQ)
  end.
  - intros i a e' Hi. unfold bind, Scraper.clock, ret.
    draw r1. draw r2. draw r3. cbn [fst]. eexists. split; [reflexivity |].
    destruct (fmul_nonneg 1 20 r3 20) as [? ?];
      [small_side | numerals; lra .. |].
    destruct (fadd_between 15 35 15 (r3 *. 20)) as [? ?];
      [small_side | small_side | numerals; lra .. |].
    apply new_synthetic_point; numerals;
      first [lra | right; lra | left; lra].
  - exists block. split; [exact E |]. split; [lia | exact HQ].
Qed.

Lemma forEach_blocks {X B} (R : X -> list B -> Prop)
    (body : X -> list B -> State (list B)) (items : list X) :
  (forall x a e, exists block, fst (body x a e) = a ++ block /\ R x block) ->
  forall (acc : list B) (e : Env),
    exists blocks : list (list B),
      fst (forEach items body acc e) = acc ++ List.concat blocks /\
      Forall2 R items blocks.
Proof.
  intros Hbody. induction items as [|x items IH]; intros acc e; cbn.
  - exists []. cbn. rewrite app_nil_r. split; constructor.
  - unfold bind. destruct (Hbody x acc e) as (block & E & HR).
    destruct (body x acc e) as [acc' e']. cbn [fst] in E. subst acc'.
    destruct (IH (acc ++ block) e') as (blocks & E' & HF).
    exists (block :: blocks). rewrite E', <- app_assoc. cbn.
    split; [reflexivity | now constructor].
Qed.

Lemma getEnhancedMockData_blocks (e : Env) :
  exists blocks : list (list point),
    fst (Scraper.getEnhancedMockData e) = List.concat blocks /\
    Forall2 (fun s block =>
               (5 <= List.length block <= 25)%nat /\
               Forall (synthetic_for s) block)
            Scraper.getRadarStations blocks.
Proof.
  unfold Scraper.getEnhancedMockData.
  match goal with
  | |- context [forEach ?l ?b [] e] =>
      destruct (forEach_blocks
                  (fun s block =>
                     (5 <= List.length block <= 25)%nat /\
                     Forall (synthetic_for s) block) b l) with (acc := @nil point) (e := e)
        as (blocks & E & HF)
  end.
  - intros s a e'. unfold bind. draw systemType.
    destruct (Num.Qlt_bool systemType (literal (3 # 10))).
    { destruct (generateThunderstormCell_block a s e0) as (b & E & Hl & HQ).
      exists b. split; [exact E |]. split; [lia | exact HQ]. }
    destruct (Num.Qlt_bool systemType (literal (6 # 10))).
    { destruct (generateWeatherFront_block a s e0) as (b & E & Hl & HQ).
      exists b. split; [exact E |]. split; [lia | exact HQ]. }
    destruct (generateScatteredShowers_block a s e0) as (b & E & Hl & HQ).
    exists b. split; [exact E |]. split; [lia | exact HQ].
  - exists blocks. split; [exact E | exact HF].
Qed.
End SyntheticBlocks.

Section DerivedBlocks.
Context {RT : Runtime}.

Lemma rnd_nonneg (x : Q) : 0 <= x -> 0 <= rnd x.
Proof.
  intros H. rewrite <- (rnd_integer 0) by small_side. now apply rnd_monotone.
Qed.

(** [Math.min(reflectivity, 50)] keeps the class of a reflectivity. *)
Lemma cap_classified (x : number) :
  Scraper.classifyPrecipitation x = Scraper.classifyPrecipitation (Num.min x 50) /\
  Scraper.getColorForReflectivity x = Scraper.getColorForReflectivity (Num.min x 50).
Proof.
  destruct x as [| |q|]; try (split; reflexivity).
  unfold Num.min, Num.lt, Num.Qlt_bool,
    Scraper.classifyPrecipitation, Scraper.getColorForReflectivity.
  cbn -[Qle_bool].
  destruct (Qle_bool q 50) eqn:E; cbn -[Qle_bool]; [split; reflexivity |].
  unfold Num.lt, Num.Qlt_bool.
  repeat match goal with
  | |- context [Qle_bool ?a ?b] => destruct (Qle_bool a b) eqn:?
  end; cbn; breakpoints; split; try reflexivity; exfalso; lra.
Qed.

Lemma cap_range (v : number) (x : Q) :
  Num.gt v 0 = true -> 0 <= x ->
  Num.le 0 (Num.min (add v (Fin x)) 50) = true /\
  Num.le (Num.min (add v (Fin x)) 50) 50 = true.
Proof.
  destruct v as [| |a|]; try discriminate; intros Hv Hx; [| split; reflexivity].
  apply NumFacts.lt_Fin in Hv.
  assert (H0 : 0 <= a +. x) by (apply rnd_nonneg; lra).
  unfold add, Num.min, Num.lt, Num.le, Num.Qlt_bool.
  destruct (Qle_bool (a +. x) 50) eqn:E; cbn -[Qle_bool].
  - split; [now apply Qle_bool_iff | exact E].
  - split; reflexivity.
Qed.

Lemma derived_block (s : radarStation) (value : number) (data : list point) (e : Env) :
  Num.gt value 0 = true ->
  exists block : list point,
    fst ((r <- Math_random ;;
          let numPoints := (Math_floor (r *. 10) + 5)%Z in
          for_range 0 (Z.to_nat numPoints) (fun i data =>
            let angle := Math_PI *. 2 *. inject_Z (Z.of_nat i) /. inject_Z numPoints in
            r <- Math_random ;;
            let radius := r *. 2 in
            let lat := lat s +. radius *. Math_cos angle in
            let lon := lon s +. radius *. Math_sin angle in
            let baseReflectivity := value in
            r <- Math_random ;;
            let reflectivity := add baseReflectivity (Fin (r *. 20)) in
            now <- Scraper.clock ;;
            ret (data ++
              [ {| coordinates := (Num lon, Num lat);
                   reflectivity := Num.min reflectivity 50;
                   precipitation := Scraper.classifyPrecipitation reflectivity;
                   color := Scraper.getColorForReflectivity reflectivity;
                   source := None;
                   field := None;
                   station := Some (id s);
                   timestamp := now |} ])) data) e)
    = data ++ block /\
    (5 <= List.length block <= 15)%nat /\ Forall (derived_for s) block.
Proof.
  intros Hv. unfold bind at 1. draw r0.
  pose proof (count_range r0 10%Z 5%Z ltac:(lia) ltac:(cbv; discriminate)
                (proj1 Hr0) (proj2 Hr0)) as Hcount.
  unfold inject_Z in Hcount.
  match goal with
  | |- context [for_range 0 ?c ?b data ?e1] =>
      destruct (for_range_block (derived_for s) b c 0 data e1)
        as (block & E & Hlen & HQ)
  end.
  - intros i a e' Hi. unfold bind, Scraper.clock, ret.
    draw r1. draw r2. cbn [fst]. eexists. split; [reflexivity |].
    destruct (fmul_nonneg 1 20 r2 20) as [? ?];
      [small_side | numerals; lra .. |].
    destruct (cap_classified (add value (Fin (r2 *. 20)))) as [Hp Hc].
    destruct (cap_range value (r2 *. 20) Hv) as [? ?]; [assumption |].
    repeat split;
      cbn [station source field precipitation color reflectivity]; assumption.
  - exists block. split; [exact E |]. split; [lia | exact HQ].
Qed.

Lemma extractPrecipitationData_blocks (forecast : forecastData) (s : radarStation)
    (e : Env) :
  exists blocks : list (list point),
    fst (Scraper.extractPrecipitationData forecast s e) = List.concat blocks /\
    Forall2 (fun probability block =>
               (if rainy probability
                then (5 <= List.length block <= 15)%nat
                else block = []) /\
               Forall (derived_for s) block)
            (match periods forecast with
             | Some ps => firstn 3 ps
             | None => []
             end) blocks.
Proof.
  unfold Scraper.extractPrecipitationData.
  destruct (periods forecast) as [ps |].
  - match goal with
    | |- context [forEach ?l ?b [] e] =>
        destruct (forEach_blocks
                    (fun probability block =>
                       (if rainy probability
                        then (5 <= List.length block <= 15)%nat
                        else block = []) /\
                       Forall (derived_for s) block) b l)
          with (acc := @nil point) (e := e) as (blocks & E & HF)
    end.
    + intros probability a e'.
      destruct probability as [| |value]; cbn [rainy];
        try (exists []; rewrite app_nil_r; repeat split; constructor).
      destruct (Num.gt value 0) eqn:Hv.
      * destruct (derived_block s value a e' Hv) as (block & E & Hl & HQ).
        exists block. split; [exact E |]. split; assumption.
      * exists []. rewrite app_nil_r. repeat split. constructor.
    + exists blocks. split; [exact E | exact HF].
  - exists []. split; [reflexivity | constructor].
Qed.
End DerivedBlocks.

Section Provenance.
Context {RT : Runtime}.

Lemma convert_tagged (now : Env) (fd : fieldData) (name : string) :
  Forall (fun p => decoded_tagged p /\ field p = Some name)
         (Scraper.convertGRIB2ToRadarPoints now fd name).
Proof.
  apply Forall_forall. intros p Hp. apply in_convert in Hp.
  destruct Hp as (i & _ & Hp). apply decoded_at_inv in Hp.
  destruct Hp as (v & _ & _ & _ & ->).
  repeat split; cbn [source station field]; try reflexivity.
  now exists name.
Qed.

Lemma getMRMSNcepData_tagged (e e' : Env) (points : list point) :
  Scraper.getMRMSNcepData e = (Returned points, e') -> Forall decoded_tagged points.
Proof.
  apply getMRMSNcepData_Forall. intros now fd name.
  eapply Forall_impl; [| apply convert_tagged]. intros p [H _]. exact H.
Qed.

(** The four ways the chain can end. *)
Lemma chain_cases (ncep viewer nws : Env -> outcome (list point) * Env) (w : world) :
  exists (points : list point) (w' : world),
    Scraper.getLatestRadarData_with ncep viewer nws w = (Returned points, w') /\
    points <> [] /\
    ((exists e e', ncep e = (Returned points, e') /\
        invoked w' = invoked w ++ [GetMRMSNcepData]) \/
     (exists e e', viewer e = (Returned points, e') /\
        invoked w' = invoked w ++ [GetMRMSNcepData; GetMRMSViewerData]) \/
     (exists e e', nws e = (Returned points, e') /\
        invoked w' = invoked w ++ [GetMRMSNcepData; GetMRMSViewerData;
                                   GetNWSRadarData]) \/
     (exists e, points = fst (Scraper.getEnhancedMockData e) /\
        invoked w' = invoked w ++ [GetMRMSNcepData; GetMRMSViewerData;
                                   GetNWSRadarData; GetEnhancedMockData])).
Proof.
  rewrite chain_refines_spec. cbn [AcquisitionPipeline_spec].
  assert (Hmock : forall e : Env,
            fst (Scraper.getEnhancedMockData e) <> []).
  { intros e E. pose proof (getEnhancedMockData_length e) as H.
    rewrite E in H. cbn in H. lia. }
  destruct (ncep (env w)) as [[[|p1 l1] | err1] e1] eqn:E1;
    unfold after at 1; cbn [env invoked].
  2: { eexists _, _. split; [reflexivity |]. split; [discriminate |].
       left. eauto. }
  all: destruct (viewer e1) as [[[|p2 l2] | err2] e2] eqn:E2;
    unfold after at 1; cbn [env invoked].
  2, 5: eexists _, _; (split; [reflexivity |]); (split; [discriminate |]);
    right; left; unfold after; cbn [invoked]; rewrite <- !app_assoc; eauto.
  all: destruct (nws e2) as [[[|p3 l3] | err3] e3] eqn:E3;
    unfold after at 1; cbn [env invoked].
  all: try (eexists _, _; (split; [reflexivity |]); (split; [discriminate |]);
    right; right; left; unfold after; cbn [invoked]; rewrite <- !app_assoc; eauto).
  all: pose proof (Hmock e3) as Hne;
    destruct (Scraper.getEnhancedMockData e3) as [mock e4] eqn:E4;
    cbn [fst] in Hne;
    eexists _, _; (split; [reflexivity |]); (split; [exact Hne |]);
    right; right; right; exists e3; rewrite E4; unfold after; cbn [invoked fst];
    rewrite <- !app_assoc; split; reflexivity.
Qed.
End Provenance.

Section Strategies.
Context {RT : Runtime}.

Lemma concat_length_le {X B} (R : X -> list B -> Prop) (hi : nat)
    (items : list X) (blocks : list (list B)) :
  Forall2 (fun x block => (List.length block <= hi)%nat /\ R x block)
          items blocks ->
  (List.length (List.concat blocks) <= hi * List.length items)%nat.
Proof.
  induction 1 as [|x block items blocks [Hlen _] _ IH];
    cbn [List.concat List.length]; [lia |].
  rewrite length_app. lia.
Qed.

(** The points of the rainy periods: 5 to 15 for each. *)
Lemma rainy_length (Q : list point -> Prop) (ps : list value)
    (blocks : list (list point)) :
  Forall2 (fun probability block =>
             (if rainy probability
              then (5 <= List.length block <= 15)%nat
              else block = []) /\ Q block) ps blocks ->
  (5 * List.length (filter rainy ps) <= List.length (List.concat blocks)
   <= 15 * List.length (filter rainy ps))%nat.
Proof.
  induction 1 as [|v block ps blocks [Hlen _] _ IH];
    cbn [List.concat List.length filter]; [lia |].
  rewrite length_app. destruct (rainy v); cbn [List.length].
  - lia.
  - subst block. cbn [List.length]. lia.
Qed.

Lemma concat_Forall {X B} (R : X -> list B -> Prop) (Q : B -> Prop)
    (items : list X) (blocks : list (list B)) :
  Forall2 R items blocks ->
  (forall x block, In x items -> R x block -> Forall Q block) ->
  Forall Q (List.concat blocks).
Proof.
  induction 1 as [|x block items blocks HR _ IH]; intros HQ; cbn; [constructor |].
  apply Forall_app. split.
  - apply (HQ x); [now left | exact HR].
  - apply IH. intros y b Hy. apply HQ. now right.
Qed.

Lemma getStationRadarData_block (s : radarStation) (e : Env) :
  (List.length (fst (Scraper.getStationRadarData s e)) <= 45)%nat /\
  Forall (derived_for s) (fst (Scraper.getStationRadarData s e)) /\
  (forall err e', axios_get_forecast s e = (Thrown err, e') ->
     fst (Scraper.getStationRadarData s e) = []).
Proof.
  unfold Scraper.getStationRadarData.
  destruct (axios_get_forecast s e) as [[forecast | err] e1].
  - destruct (extractPrecipitationData_blocks forecast s e1) as (blocks & E & HF).
    rewrite E. split; [| split; [| discriminate]].
    + pose proof (rainy_length _ _ _ HF) as [_ H].
      etransitivity; [exact H |].
      assert (Hn : (List.length (filter rainy
                      (match periods forecast with
                       | Some ps => firstn 3 ps
                       | None => []
                       end)) <= 3)%nat).
      { etransitivity; [apply filter_length_le |].
        destruct (periods forecast); [apply firstn_le_length | cbn; lia]. }
      lia.
    + eapply concat_Forall; [exact HF |]. intros v b _ [_ HQ]. exact HQ.
  - cbn. split; [lia |]. split; [constructor | reflexivity].
Qed.
End Strategies.

Section StrategyFacts.
Context {RT : Runtime}.

(** The loop over the entries throws the error of the first entry that
    raises one; if none does, it returns what the entries contribute, in
    order: the push of the points of an entry never throws. *)
Lemma extract_fields_flat_map (now : Env) (data : list (string * jsonEntry)) :
  forall radarPoints : list point,
    Scraper.extract_fields now data radarPoints =
    match first_error data with
    | Some error => Thrown error
    | None => Returned (radarPoints ++ flat_map (field_points now) data)
    end.
Proof.
  induction data as [|[name [|fd]] data IH]; intros acc;
    cbn [Scraper.extract_fields flat_map first_error].
  - now rewrite app_nil_r.
  - reflexivity.
  - unfold entry_error, field_points. cbn [fst snd entry_arrays].
    destruct (json_values fd) as [vs|], (json_latitudes fd) as [lats|],
      (json_longitudes fd) as [lons|]; cbn [app];
      try (rewrite IH; reflexivity).
    cbn [values].
    destruct (spread_cases vs) as [[H ->] | [H ->]].
    + destruct (Z.ltb_spec max_arguments (Z.of_nat (List.length vs))); [lia |].
      rewrite push_spread_small by apply convert_length.
      rewrite IH. destruct (first_error data); [reflexivity |].
      now rewrite <- app_assoc.
    + destruct (Z.ltb_spec max_arguments (Z.of_nat (List.length vs))); [| lia].
      reflexivity.
Qed.

Lemma getNWSRadarData_blocks (e : Env) :
  exists (points : list point) (e' : Env),
    Scraper.getNWSRadarData e = (Returned points, e') /\
    (List.length points <= 225)%nat /\
    Forall derived_point points /\
    ((forall s e0, exists err e1, axios_get_forecast s e0 = (Thrown err, e1)) ->
     points = []).
Proof.
  unfold Scraper.getNWSRadarData, total.
  match goal with
  | |- context [forEach ?l ?b [] e] =>
      pose proof (forEach_blocks
                    (fun s block =>
                       (List.length block <= 45)%nat /\ Forall (derived_for s) block)
                    b l) as HB;
      pose proof (forEach_ind (fun acc => acc = []) b l [] e) as HE;
      destruct (forEach l b [] e) as [points e'] eqn:E
  end.
  exists points, e'. split; [reflexivity |].
  destruct (HB) with (acc := @nil point) (e := e) as (blocks & Eb & HF).
  { intros s a e0. unfold bind, ret.
    destruct (getStationRadarData_block s e0) as (Hl & HQ & _).
    destruct (Scraper.getStationRadarData s e0) as [data e1]. cbn [fst] in Hl, HQ; cbn [fst].
    rewrite push_spread_small by lia. cbn [fst].
    exists data. repeat split; assumption. }
  rewrite E in Eb. cbn [fst app] in Eb. subst points.
  split; [| split].
  - pose proof (concat_length_le _ 45 _ _ HF) as H.
    pose proof (firstn_le_length 5 Scraper.getRadarStations). lia.
  - eapply concat_Forall; [exact HF |]. intros s b Hs [_ HQ].
    eapply Forall_impl; [| exact HQ]. intros p Hp. exists s. split; assumption.
  - intros Hdown. cbn [fst] in HE. apply HE; [| reflexivity].
    intros s a e0 _ ->. unfold bind, ret.
    destruct (getStationRadarData_block s e0) as (_ & _ & Hfail).
    destruct (Hdown s e0) as (err & e1 & Herr). specialize (Hfail err e1 Herr).
    destruct (Scraper.getStationRadarData s e0) as [data e2]. cbn [fst] in Hfail; cbn [fst].
    subst data. now rewrite push_spread_small by (cbn; lia).
Qed.

Lemma getEnhancedMockData_synthetic (e : Env) :
  Forall synthetic_point (fst (Scraper.getEnhancedMockData e)).
Proof.
  destruct (getEnhancedMockData_blocks e) as (blocks & E & HF). rewrite E.
  eapply concat_Forall; [exact HF |]. intros s b Hs [_ HQ].
  eapply Forall_impl; [| exact HQ]. intros p Hp. exists s. split; assumption.
Qed.

Lemma getLatestRadarData_cases (w : world) :
  exists (points : list point) (w' : world),
    Scraper.getLatestRadarData w = (Returned points, w') /\
    points <> [] /\
    ((invoked w' = invoked w ++ [GetMRMSNcepData] /\
      Forall decoded_tagged points) \/
     (invoked w' = invoked w ++ [GetMRMSNcepData; GetMRMSViewerData;
                                 GetNWSRadarData] /\
      Forall derived_point points) \/
     (invoked w' = invoked w ++ [GetMRMSNcepData; GetMRMSViewerData;
                                 GetNWSRadarData; GetEnhancedMockData] /\
      Forall synthetic_point points)).
Proof.
  destruct (chain_cases Scraper.getMRMSNcepData Scraper.getMRMSViewerData
              Scraper.getNWSRadarData w)
    as (points & w' & E & Hne & Hcase).
  exists points, w'. split; [exact E |]. split; [exact Hne |].
  destruct Hcase as [(e & e' & H & Hi) | [(e & e' & H & Hi)
                    | [(e & e' & H & Hi) | (e & -> & Hi)]]].
  - left. split; [exact Hi |]. eapply getMRMSNcepData_tagged. exact H.
  - apply getMRMSViewerData_empty in H. contradiction.
  - right. left. split; [exact Hi |].
    destruct (getNWSRadarData_blocks e) as (l & e0 & E0 & _ & HQ & _).
    rewrite H in E0. injection E0 as -> _. exact HQ.
  - right. right. split; [exact Hi |]. apply getEnhancedMockData_synthetic.
Qed.
End StrategyFacts.

Section RegionalFacts.
Context {RT : Runtime}.

Lemma generateWeatherSystems_range (e : Env) :
  exists systems : list Processor.weatherSystem,
    fst (Processor.generateWeatherSystems e) = systems /\
    (3 <= List.length systems <= 7)%nat /\ Forall system_in_range systems.
Proof.
  unfold Processor.generateWeatherSystems, bind. draw r0.
  pose proof (count_range r0 4%Z 3%Z ltac:(lia) ltac:(cbv; discriminate)
                (proj1 Hr0) (proj2 Hr0)) as Hcount.
  unfold inject_Z in Hcount.
  match goal with
  | |- context [for_range 0 ?c ?b [] ?e1] =>
      destruct (for_range_block system_in_range b c 0 [] e1)
        as (block & E & Hlen & HQ)
  end.
  - intros i a e' Hi. unfold bind, ret.
    draw r1. draw r2. draw r3. draw r4. cbn [fst].
    eexists. split; [reflexivity |].
    destruct (fmul_nonneg 1 20 r1 20) as [? ?]; [small_side | numerals; lra .. |].
    destruct (fadd_between 25 45 25 (r1 *. 20)) as [? ?];
      [small_side | small_side | numerals; lra .. |].
    destruct (fmul_nonneg 1 50 r2 50) as [? ?]; [small_side | numerals; lra .. |].
    destruct (fadd_between (- 120) (- 70) (- 120) (r2 *. 50)) as [? ?];
      [small_side | small_side | numerals; lra .. |].
    destruct (fmul_nonneg 1 30 r3 30) as [? ?]; [small_side | numerals; lra .. |].
    destruct (fadd_between 20 50 20 (r3 *. 30)) as [? ?];
      [small_side | small_side | numerals; lra .. |].
    destruct (fmul_nonneg 1 8 r4 8) as [? ?]; [small_side | numerals; lra .. |].
    destruct (fadd_between 3 11 3 (r4 *. 8)) as [? ?];
      [small_side | small_side | numerals; lra .. |].
    unfold system_in_range.
    cbn [Processor.centerLat Processor.centerLon Processor.intensity Processor.size].
    numerals. repeat split; assumption.
  - eexists. split; [reflexivity |]. rewrite E. cbn [app].
    split; [lia | exact HQ].
Qed.

Lemma for_range_length_le {B} (body : nat -> list B -> State (list B)) (count : nat) :
  forall (start : nat) (acc : list B) (e : Env),
    (forall i a e', (List.length (fst (body i a e')) <= S (List.length a))%nat) ->
    (List.length (fst (for_range start count body acc e))
     <= List.length acc + count)%nat.
Proof.
  induction count as [|count IH]; intros start acc e Hbody; cbn.
  - lia.
  - unfold bind. pose proof (Hbody start acc e) as H.
    destruct (body start acc e) as [acc' e']. cbn [fst] in H.
    specialize (IH (S start) acc' e' Hbody). lia.
Qed.

Lemma stored_at_least (a : Z) (x : Q) (digits : nat) :
  small a -> inject_Z a <= x -> inject_Z a <= parseFloat (toFixed x digits).
Proof.
  intros Sa Ha.
  destruct (toFixed_between a (Qceiling x) x digits Ha (Qle_ceiling x)) as [H _].
  unfold parseFloat. rewrite <- (rnd_integer a Sa). now apply rnd_monotone.
Qed.

Lemma new_significant (raw : Q) (lat lon : Q) :
  10 < raw ->
  significant
    {| Processor.lat := lat;
       Processor.lon := lon;
       Processor.reflectivity := parseFloat (toFixed raw 1);
       Processor.precipitation := Processor.reflectivityToPrecipitation (Fin raw) |}.
Proof.
  intros H.
  assert (Hs : 10 <= parseFloat (toFixed raw 1)).
  { apply (stored_at_least 10); [small_side | numerals; lra]. }
  unfold significant.
  cbn [Processor.reflectivity Processor.precipitation].
  split; [exact Hs |].
  unfold Processor.reflectivityToPrecipitation, Processor.getColorForReflectivity,
    Num.lt, Num.Qlt_bool.
  apply Qle_bool_iff in Hs. rewrite Hs.
  assert (Hr : Qle_bool 10 raw = true) by (apply Qle_bool_iff; lra).
  rewrite Hr. cbn [negb].
  split.
  - destruct (negb (Qle_bool 20 raw)); [discriminate |].
    destruct (negb (Qle_bool 30 raw)); [discriminate |].
    destruct (negb (Qle_bool 40 raw)); discriminate.
  - repeat match goal with
    | |- context [negb ?b] => destruct (negb b)
    end; discriminate.
Qed.

Lemma system_points_significant (system : Processor.weatherSystem)
    (radarPoints : list Processor.radarPoint) (e : Env) :
  Forall significant radarPoints ->
  Forall significant (fst (Processor.system_points system radarPoints e)).
Proof.
  intros Hm. unfold Processor.system_points.
  apply for_range_ind; [| exact Hm].
  intros i a e' Hi Ha. unfold bind at 1. draw patternType.
  match goal with
  | |- context [bind ?c ?k] => generalize c
  end.
  intros c. unfold bind. destruct (c e0) as [[lat lon] e2].
  destruct (Math_random e2) as [r1 e3]. destruct (Math_random e3) as [r2 e4].
  destruct (Math_random e4) as [r3 e5].
  match goal with |- context [if ?c then _ else _] => destruct c eqn:Hc end;
    unfold ret; cbn [fst]; [| exact Ha].
  repeat (apply andb_true_iff in Hc; destruct Hc as [Hc ?]).
  apply NumFacts.Qlt_bool_iff in Hc.
  apply Forall_app. split; [exact Ha |]. constructor; [| constructor].
  now apply new_significant.
Qed.

Lemma system_points_length (system : Processor.weatherSystem)
    (radarPoints : list Processor.radarPoint) (e : Env) :
  system_in_range system ->
  (List.length (fst (Processor.system_points system radarPoints e))
   <= List.length radarPoints + 550)%nat.
Proof.
  intros (_ & _ & _ & _ & _ & _ & Hs1 & Hs2). unfold Processor.system_points.
  etransitivity; [apply for_range_length_le |].
  - intros i a e'. unfold bind at 1. destruct (Math_random e') as [patternType e0].
    match goal with
    | |- context [bind ?c ?k] => generalize c
    end.
    intros c. unfold bind. destruct (c e0) as [[lat lon] e2].
    destruct (Math_random e2) as [r1 e3]. destruct (Math_random e3) as [r2 e4].
    destruct (Math_random e4) as [r3 e5].
    match goal with |- context [if ?c then _ else _] => destruct c end;
      unfold ret; cbn [fst]; [rewrite length_app; cbn; lia | lia].
  - destruct (fmul_nonneg 11 50 (Processor.size system) 50) as [_ H];
      [small_side | numerals; lra .. |].
    apply Qfloor_resp_le in H. rewrite Qfloor_Z in H.
    unfold Math_floor. cbn in H. lia.
Qed.

Lemma createMockRadarData_points_significant (e : Env) :
  Forall significant (fst (Processor.createMockRadarData_points e)) /\
  (List.length (fst (Processor.createMockRadarData_points e)) <= 3850)%nat.
Proof.
  unfold Processor.createMockRadarData_points, bind.
  destruct (generateWeatherSystems_range e) as (systems & E & Hlen & Hr).
  destruct (Processor.generateWeatherSystems e) as [systems' e1].
  cbn [fst] in E. subst systems'. split.
  - apply forEach_ind; [| constructor].
    intros system a e' _ Ha. now apply system_points_significant.
  - assert (G : forall (l : list Processor.weatherSystem) acc e0,
              Forall system_in_range l ->
              (List.length (fst (forEach l Processor.system_points acc e0))
               <= List.length acc + 550 * List.length l)%nat).
    { induction l as [|x l IH]; intros acc e0 HF; cbn [forEach List.length].
      - unfold ret. cbn. lia.
      - inversion HF as [|? ? Hx Hl]; subst. unfold bind.
        pose proof (system_points_length x acc e0 Hx) as H.
        destruct (Processor.system_points x acc e0) as [acc' e2]. cbn [fst] in H.
        specialize (IH acc' e2 Hl). lia. }
    specialize (G systems [] e1 Hr). cbn [List.length] in G. lia.
Qed.
End RegionalFacts.

Section Coordinates.
Context {RT : Runtime}.

Lemma literal_nonneg (q : Q) : 0 <= q -> 0 <= literal q.
Proof. apply rnd_nonneg. Qed.

(** One coordinate of [convertCoordinates] grows with its grid index. *)
Lemma convert_axis_monotone (origin x x' : Q) :
  x <= x' ->
  origin +. (x -. 1000) *. literal (1 # 100)
  <= origin +. (x' -. 1000) *. literal (1 # 100).
Proof.
  intros H. unfold fadd, fmul, fsub.
  assert (Hl : 0 <= literal (1 # 100)) by (apply literal_nonneg; lra).
  assert (Hd : rnd (x - 1000) <= rnd (x' - 1000)) by (apply rnd_monotone; lra).
  apply rnd_monotone.
  assert (rnd (rnd (x - 1000) * literal (1 # 100))
          <= rnd (rnd (x' - 1000) * literal (1 # 100)));
    [| lra].
  apply rnd_monotone. nra.
Qed.

Lemma rnd_exact (z : Z) (x : Q) :
  small z -> x == inject_Z z -> rnd x == inject_Z z.
Proof.
  intros Hs E. pose proof (rnd_integer z Hs) as Ez.
  assert (rnd x <= rnd (inject_Z z)) by (apply rnd_monotone; lra).
  assert (rnd (inject_Z z) <= rnd x) by (apply rnd_monotone; lra).
  lra.
Qed.

Lemma convert_axis_origin (origin : Z) :
  small origin ->
  inject_Z origin +. (1000 -. 1000) *. literal (1 # 100) == inject_Z origin.
Proof.
  intros Hs. unfold fadd, fmul, fsub.
  assert (E1 : rnd (1000 - 1000) == inject_Z 0)
    by (apply rnd_exact; [small_side | reflexivity]).
  assert (E2 : rnd (rnd (1000 - 1000) * literal (1 # 100)) == inject_Z 0).
  { apply rnd_exact; [small_side |]. rewrite E1. numerals. ring. }
  apply rnd_exact; [exact Hs |]. rewrite E2. numerals. ring.
Qed.
End Coordinates.

Section MoreClassifiers.

Lemma scraper_monotone (r r' : number) :
  Num.le r r' = true ->
  (category_index (Scraper.classifyPrecipitation r)
   <= category_index (Scraper.classifyPrecipitation r'))%nat.
Proof.
  unfold Scraper.classifyPrecipitation.
  destruct r as [| |a|], r' as [| |b|]; cbn -[Qle_bool];
    try discriminate; try lia; intros H; unfold Num.Qlt_bool;
    repeat match goal with
    | |- context [Qle_bool ?x ?y] => destruct (Qle_bool x y) eqn:?
    end; cbn; try lia; exfalso; breakpoints; lra.
Qed.

(** From 10 dBZ on the 3-bucket category is the 5-bucket category or the
    one below it. *)
Lemma classifiers_one_apart (r : number) :
  Num.ge r 10 = true ->
  (category_index (Scraper.classifyPrecipitation r)
   <= category_index (Processor.reflectivityToPrecipitation r)
   <= S (category_index (Scraper.classifyPrecipitation r)))%nat.
Proof.
  unfold Scraper.classifyPrecipitation, Processor.reflectivityToPrecipitation, Num.ge.
  destruct r as [| |a|]; cbn -[Qle_bool]; try discriminate; try lia.
  intros H. unfold Num.Qlt_bool. rewrite H. cbn [negb].
  repeat match goal with
  | |- context [Qle_bool ?x ?y] => destruct (Qle_bool x y) eqn:?
  end; cbn; try lia; exfalso; breakpoints; lra.
Qed.
End MoreClassifiers.

Section Primary.
Context {RT : Runtime}.

(** The file [parseMRMSDirectory] downloads: the first whose name
    contains [latest], or else the first. *)
Lemma find_latest (files : list string) :
  files <> [] ->
  exists (before after : list string) (f : string),
    files = before ++ f :: after /\
    Forall (fun g => includes g "latest" = false) before /\
    (includes f "latest" = true \/
     (before = [] /\ Forall (fun g => includes g "latest" = false) after)) /\
    match find (fun f => includes f "latest") files with
    | Some f' => f'
    | None => nth 0 files ""
    end = f.
Proof.
  intros Hne.
  destruct (find (fun f => includes f "latest") files) as [f |] eqn:E.
  - clear Hne. induction files as [|g files IH]; [discriminate |].
    cbn in E. destruct (includes g "latest") eqn:Eg.
    + injection E as ->. exists [], files, f. repeat split; auto.
    + destruct (IH E) as (before & after & f' & Efiles & Hb & Hf & Ef).
      subst f' files. exists (g :: before), after, f.
      split; [reflexivity |]. split; [now constructor |].
      split; [| reflexivity]. left.
      apply find_some in E. tauto.
  - destruct files as [|g files]; [contradiction |].
    exists [], files, g. repeat split; auto. right. split; [reflexivity |].
    apply Forall_forall. intros h Hh.
    apply (find_none _ _ E h). now right.
Qed.
End Primary.

(** X3.  The loop of [parseGRIB2File] over the entries of a grid document
    throws exactly when an entry raises an error, and then the error of the
    first such entry: a TypeError for an entry that is null, a RangeError
    for an entry with the three arrays whose values are more than a call
    takes arguments; the points of the entries before it are lost.
    Otherwise it returns the points of the entries, entry after entry in
    the order of the document, where an entry that lacks one of its three
    arrays gives none; every point is tagged with the source MRMS_GRIB2 and
    with the name of an entry. *)
Theorem grid_document_decoded_field_by_field :
  forall (RT : Runtime) (now : Env) (data : list (string * jsonEntry)),
    match Scraper.extract_fields now data [] with
    | Thrown error => first_error data = Some error
    | Returned points =>
        first_error data = None /\
        points = flat_map (field_points now) data /\
        Forall (fun p : point =>
                  source p = Some "MRMS_GRIB2" /\
                  exists entry, In entry data /\ field p = Some (fst entry))
               points
    end.
Proof.
  intros RT now data. rewrite extract_fields_flat_map. cbn [app].
  destruct (first_error data) as [error |]; [reflexivity |].
  split; [reflexivity |]. split; [reflexivity |].
  apply Forall_forall. intros p Hp. apply in_flat_map in Hp.
  destruct Hp as (entry & Hentry & Hp). unfold field_points in Hp.
  destruct (entry_arrays (snd entry)) as [fd |]; [| contradiction].
  pose proof (convert_tagged now fd (fst entry)) as H.
  rewrite Forall_forall in H. destruct (H p Hp) as [(Hs & _) Hf].
  split; [exact Hs |]. exists entry. split; assumption.
Qed.

(** A [null] entry after the field of the end-to-end scenario: the loop
    throws, and the three points of the field are lost. *)
Example null_entry_loses_points :
  Scraper.extract_fields (RT := Simulation.runtime) offline
    (scenario_grid ++ [("BREF_1HR_MIN", JsonNull)]) []
  = Thrown TypeError /\
  exists points : list point,
    Scraper.extract_fields (RT := Simulation.runtime) offline scenario_grid []
    = Returned points /\ List.length points = 3%nat.
Proof.
  split; [vm_compute; reflexivity |].
  eexists. split; [vm_compute; reflexivity | reflexivity].
Qed.

(** X4.  The synthetic fallback gives each of the ten stations, in the
    order of the list, a block of 5 to 25 points that carry the id of the
    station and no source, a reflectivity within [10, 50], and the category
    and color of that reflectivity. *)
Theorem synthetic_fallback_station_blocks :
  forall (RT : Runtime) (e : Env),
    exists blocks : list (list point),
      fst (Scraper.getEnhancedMockData e) = List.concat blocks /\
      Forall2 (fun s block =>
                 (5 <= List.length block <= 25)%nat /\
                 Forall (synthetic_for s) block)
              Scraper.getRadarStations blocks.
Proof. intros RT e. apply getEnhancedMockData_blocks. Qed.

(** X5.  Only the first three periods of a forecast count, and of these
    only the periods whose probability of precipitation is a number above
    0: each gives 5 to 15 points, with the id of the station, a
    reflectivity within [0, 50] and the category and color of that
    reflectivity.  A forecast without periods gives no point. *)
Theorem station_forecast_points :
  forall (RT : Runtime) (forecast : forecastData) (s : radarStation) (e : Env),
    let counted := match periods forecast with
                   | Some ps => filter rainy (firstn 3 ps)
                   | None => []
                   end in
    let points := fst (Scraper.extractPrecipitationData forecast s e) in
    (5 * List.length counted <= List.length points <= 15 * List.length counted)%nat /\
    Forall (derived_for s) points.
Proof.
  intros RT forecast s e counted points. subst counted points.
  destruct (extractPrecipitationData_blocks forecast s e) as (blocks & E & HF).
  rewrite E. split.
  - pose proof (rainy_length _ _ _ HF) as H.
    destruct (periods forecast); exact H.
  - eapply concat_Forall; [exact HF |]. intros v b _ [_ HQ]. exact HQ.
Qed.

(** X6.  The station strategy never throws.  It returns at most 225
    points, all derived from the first five stations, and no point at all
    when every forecast request fails. *)
Theorem station_strategy_never_throws :
  forall (RT : Runtime) (e : Env),
    exists (points : list point) (e' : Env),
      Scraper.getNWSRadarData e = (Returned points, e') /\
      (List.length points <= 225)%nat /\
      Forall derived_point points /\
      ((forall s e0, exists err e1, axios_get_forecast s e0 = (Thrown err, e1)) ->
       points = []).
Proof. intros RT e. apply getNWSRadarData_blocks. Qed.

Lemma self_classified_of_cases {RT : Runtime} (p : point) :
  decoded_tagged p \/ derived_point p \/ synthetic_point p -> self_classified p.
Proof.
  intros [(_ & _ & _ & H) | [(s & _ & _ & _ & _ & H & _) | (s & _ & _ & _ & _ & H & _)]];
    exact H.
Qed.

(** X7.  Every point [getLatestRadarData] returns has the category and the
    color that the 3-bucket classifier gives its own stored reflectivity,
    whichever strategy made it. *)
Theorem returned_points_match_own_reflectivity :
  forall (RT : Runtime) (w : world),
    exists (points : list point) (w' : world),
      Scraper.getLatestRadarData w = (Returned points, w') /\
      Forall (fun p : point =>
                precipitation p = Scraper.classifyPrecipitation (reflectivity p) /\
                color p = Scraper.getColorForReflectivity (reflectivity p))
             points.
Proof.
  intros RT w. destruct (getLatestRadarData_cases w) as (points & w' & E & _ & H).
  exists points, w'. split; [exact E |].
  destruct H as [[_ H] | [[_ H] | [_ H]]];
    (eapply Forall_impl; [| exact H]); intros p Hp;
    apply self_classified_of_cases; tauto.
Qed.

(** X8.  A run of [getLatestRadarData] ends in one of three ways: after the
    primary strategy alone, with decoded points; after the three fetch
    strategies, with station-derived points; or after all four methods,
    with synthetic points.  It never ends on the viewer strategy, and a
    result never mixes points of two origins. *)
Theorem chain_ends_in_three_ways :
  forall (RT : Runtime) (w : world),
    exists (points : list point) (w' : world),
      Scraper.getLatestRadarData w = (Returned points, w') /\
      points <> [] /\
      ((invoked w' = invoked w ++ [GetMRMSNcepData] /\
        Forall decoded_tagged points) \/
       (invoked w' = invoked w ++ [GetMRMSNcepData; GetMRMSViewerData;
                                   GetNWSRadarData] /\
        Forall derived_point points) \/
       (invoked w' = invoked w ++ [GetMRMSNcepData; GetMRMSViewerData;
                                   GetNWSRadarData; GetEnhancedMockData] /\
        Forall synthetic_point points)).
Proof. intros RT w. apply getLatestRadarData_cases. Qed.

(** X9.  The primary strategy throws only when the request for the
    directory listing throws, and then the same error.  Otherwise it
    returns: no point and no further request when the listing names no
    file, and no point when the download cannot be made. *)
Theorem primary_strategy_throws_only_listing_error :
  forall (RT : Runtime) (e : Env),
    match axios_get_listing e with
    | (Thrown err, e1) => Scraper.getMRMSNcepData e = (Thrown err, e1)
    | (Returned html, e1) =>
        exists (points : list point) (e2 : Env),
          Scraper.getMRMSNcepData e = (Returned points, e2) /\
          (listing_files html = [] -> points = [] /\ e2 = e1) /\
          ((forall f, exists err e', download_and_decode f e1 = (Thrown err, e')) ->
           points = [])
    end.
Proof.
  intros RT e. unfold Scraper.getMRMSNcepData.
  destruct (axios_get_listing e) as [[html | err] e1]; [| reflexivity].
  unfold Scraper.parseMRMSDirectory, Scraper.downloadAndParseGRIB2.
  destruct (listing_files html) as [|f0 files] eqn:Efiles; cbn [List.length Nat.ltb Nat.leb].
  - eexists _, _. split; [reflexivity |]. split; [split; reflexivity | reflexivity].
  - match goal with
    | |- context [download_and_decode ?f e1] =>
        destruct (download_and_decode f e1) as [[data | err] e2] eqn:Ed;
          [destruct (Scraper.extract_fields e2 data []) as [radarPoints | err];
             [destruct (fs_remove f e2) as [[u | err] e3];
                [destruct (push_spread_cases (@nil point) radarPoints)
                   as [[_ ->] | [_ ->]] |] |] |];
          (eexists _, _; split; [reflexivity |]; split; [discriminate |]);
          intros Hdown; try reflexivity;
          destruct (Hdown f) as (err' & e' & Hf); congruence
    end.
Qed.

(** X10.  When the listing names files, [parseMRMSDirectory] downloads one
    of them and only that one: the first whose name contains [latest], or
    the first of all if no name does.  Its points are the result if a call
    takes that many arguments; if it does not, or if the download or the
    decoding throws, the result is empty. *)
Theorem primary_strategy_file_choice :
  forall (RT : Runtime) (htmlContent : string) (e : Env),
    listing_files htmlContent <> [] ->
    exists (before after : list string) (f : string),
      listing_files htmlContent = before ++ f :: after /\
      Forall (fun g => includes g "latest" = false) before /\
      (includes f "latest" = true \/
       (before = [] /\ Forall (fun g => includes g "latest" = false) after)) /\
      Scraper.parseMRMSDirectory htmlContent e =
        (Returned match fst (Scraper.downloadAndParseGRIB2 f e) with
                  | Returned radarPoints =>
                      if (Z.of_nat (List.length radarPoints) <=? max_arguments)%Z
                      then radarPoints
                      else []
                  | Thrown _ => []
                  end,
         snd (Scraper.downloadAndParseGRIB2 f e)).
Proof.
  intros RT html e Hne.
  destruct (find_latest (listing_files html) Hne)
    as (before & after & f & Efiles & Hb & Hf & Echoice).
  exists before, after, f. split; [exact Efiles |]. split; [exact Hb |].
  split; [exact Hf |].
  unfold Scraper.parseMRMSDirectory. rewrite Echoice.
  destruct (listing_files html) as [|f0 files]; [contradiction |].
  cbn [List.length Nat.ltb Nat.leb].
  destruct (Scraper.downloadAndParseGRIB2 f e) as [[points | err] e'];
    [| reflexivity].
  cbn [fst snd]. unfold Scraper.push_spread, Scraper.spread.
  destruct (Z.of_nat (List.length points) <=? max_arguments)%Z; reflexivity.
Qed.

Lemma primary_strategy_file_choice_witness :
  exists (before after : list string) (f : string),
    @listing_files Simulation.runtime Simulation.latest_file
      = before ++ f :: after /\
    Forall (fun g => includes g "latest" = false) before /\
    (includes f "latest" = true \/
     (before = [] /\ Forall (fun g => includes g "latest" = false) after)) /\
    Scraper.parseMRMSDirectory Simulation.latest_file (serving scenario_grid) =
      (Returned match fst (Scraper.downloadAndParseGRIB2 f (serving scenario_grid)) with
                | Returned radarPoints =>
                    if (Z.of_nat (List.length radarPoints)
                        <=? @max_arguments Simulation.runtime)%Z
                    then radarPoints
                    else []
                | Thrown _ => []
                end,
       snd (Scraper.downloadAndParseGRIB2 f (serving scenario_grid))).
Proof.
  apply (primary_strategy_file_choice Simulation.runtime Simulation.latest_file
           (serving scenario_grid)).
  vm_compute. discriminate.
Defined.

(** X11.  [generateWeatherSystems] makes 3 to 7 systems, each with its
    center between 25 and 45 degrees of latitude and between -120 and -70
    degrees of longitude, an intensity within [20, 50] and a size within
    [3, 11]. *)
Theorem weather_systems_in_range :
  forall (RT : Runtime) (e : Env),
    (3 <= List.length (fst (Processor.generateWeatherSystems e)) <= 7)%nat /\
    Forall system_in_range (fst (Processor.generateWeatherSystems e)).
Proof.
  intros RT e. destruct (generateWeatherSystems_range e) as (systems & -> & H).
  exact H.
Qed.

(** X12.  The point list of [createMockRadarData] holds at most 3850
    points; each has a stored reflectivity of at least 10, a category other
    than none and, for its stored reflectivity, a color other than
    white. *)
Theorem regional_points_significant :
  forall (RT : Runtime) (e : Env),
    Forall significant (fst (Processor.createMockRadarData_points e)) /\
    (List.length (fst (Processor.createMockRadarData_points e)) <= 3850)%nat.
Proof. intros RT e. apply createMockRadarData_points_significant. Qed.

(** X13.  [processRadarData] rejects with the ReferenceError of
    [createMockRadarData] on every call and writes no file: whatever
    [fs.writeJson] would do, the environment is left as the generator left
    it. *)
Theorem processRadarData_never_writes :
  forall (RT : Runtime)
         (fs_writeJson : Processor.FeatureCollection -> Env -> outcome unit * Env)
         (filePath : string) (e : Env),
    Processor.processRadarData fs_writeJson filePath e =
    (Thrown (ReferenceError "minLat"), snd (Processor.createMockRadarData e)).
Proof.
  intros RT write filePath e. unfold Processor.processRadarData.
  pose proof (createMockRadarData_throws e) as H.
  destruct (Processor.createMockRadarData e) as [[mock | err] e1]; cbn [fst snd] in H |- *;
    [discriminate | congruence].
Qed.

(** X14.  [convertCoordinates] preserves order: a larger [y] never gives a
    smaller latitude, a larger [x] never a smaller longitude; the grid
    index (1000, 1000) is sent to 40 N, 100 W. *)
Theorem convertCoordinates_monotone :
  forall (RT : Runtime) (x y x' y' : Q) (projection projection' : string),
    (y <= y' ->
     fst (Processor.convertCoordinates x y projection)
     <= fst (Processor.convertCoordinates x' y' projection')) /\
    (x <= x' ->
     snd (Processor.convertCoordinates x y projection)
     <= snd (Processor.convertCoordinates x' y' projection')) /\
    fst (Processor.convertCoordinates 1000 1000 projection) == 40 /\
    snd (Processor.convertCoordinates 1000 1000 projection) == - 100.
Proof.
  intros RT x y x' y' p p'. unfold Processor.convertCoordinates. cbn [fst snd].
  split; [apply convert_axis_monotone |].
  split; [apply convert_axis_monotone |].
  split.
  - apply (convert_axis_origin 40). small_side.
  - apply (convert_axis_origin (- 100)). small_side.
Qed.

(** X15.  The category of the 3-bucket classifier does not decrease when
    the reflectivity increases. *)
Theorem three_bucket_monotone :
  forall r r' : number,
    Num.le r r' = true ->
    (category_index (Scraper.classifyPrecipitation r)
     <= category_index (Scraper.classifyPrecipitation r'))%nat.
Proof. exact scraper_monotone. Qed.

Lemma three_bucket_monotone_witness :
  (category_index (Scraper.classifyPrecipitation (Fin 19))
   <= category_index (Scraper.classifyPrecipitation (Fin 36)))%nat.
Proof. apply three_bucket_monotone. reflexivity. Defined.

(** X16.  From 10 dBZ on, the two classifiers are at most one category
    apart, and the 3-bucket classifier never gives the heavier one. *)
Theorem classifiers_at_most_one_apart :
  forall r : number,
    Num.ge r 10 = true ->
    (category_index (Scraper.classifyPrecipitation r)
     <= category_index (Processor.reflectivityToPrecipitation r)
     <= S (category_index (Scraper.classifyPrecipitation r)))%nat.
Proof. exact classifiers_one_apart. Qed.

Lemma classifiers_at_most_one_apart_witness :
  (category_index (Scraper.classifyPrecipitation (Fin 32))
   <= category_index (Processor.reflectivityToPrecipitation (Fin 32))
   <= S (category_index (Scraper.classifyPrecipitation (Fin 32))))%nat.
Proof. apply classifiers_at_most_one_apart. reflexivity. Defined.

Lemma decoder_keeps_every_sample_below_2000_witness :
  Scraper.convertGRIB2ToRadarPoints (RT := Simulation.runtime) offline
    scenario_field "BREF_1HR_MAX" =
  flat_map (fun i => kept (decoded_at offline scenario_field "BREF_1HR_MAX" i))
           (seq 0 (List.length (values scenario_field))).
Proof.
  apply (decoder_keeps_every_sample_below_2000 Simulation.runtime).
  cbn. lia.
Defined.

(** X17.  Every update cycle gets a non-empty batch from the pipeline (the
    branch for an empty one is never taken) and hands it to
    [storeRadarData] once: one row per point, in order, with the latitude
    and longitude taken from the right ends of [coordinates].  The metadata
    record follows only if that write succeeds; it counts the rows and
    always names the continental box as bounds. *)
Theorem update_cycle_stores_batch :
  forall (RT : Runtime)
         (storeRadarData : string -> list Server.row -> Env -> outcome unit * Env)
         (storeRadarMetadata :
            string -> string -> nat -> Server.bounds -> Env -> outcome unit * Env)
         (s : Server.server),
    exists (points : list point) (w : world) (rows : list Server.row),
      Scraper.getLatestRadarData (Server.scraper s) = (Returned points, w) /\
      points <> [] /\
      map row_fields rows = map point_fields points /\
      let timestamp := Date_toISOString (env w) in
      Server.db_calls (Server.updateRadarData storeRadarData storeRadarMetadata s) =
      Server.db_calls s ++
      Server.StoreRadarData timestamp rows ::
      match fst (storeRadarData timestamp rows (env w)) with
      | Returned _ =>
          [ Server.StoreRadarMetadata timestamp "MRMS_Data" (List.length rows)
              continental_box ]
      | Thrown _ => []
      end.
Proof.
  intros RT store storeMeta s.
  destruct (getLatestRadarData_cases (Server.scraper s))
    as (points & w & E & Hne & _).
  unfold Server.updateRadarData. rewrite E.
  destruct points as [|p points]; [contradiction |].
  cbn [List.length Nat.eqb].
  exists (p :: points), w,
    (map (fun point : point =>
            {| Server.lat := snd (coordinates point);
               Server.lon := fst (coordinates point);
               Server.reflectivity := point_reflectivity point;
               Server.precipitation := point_precipitation point;
               Server.color := point_color point |}) (p :: points)).
  split; [reflexivity |]. split; [exact Hne |].
  split; cycle 1.
  - cbv zeta. fold continental_box.
    match goal with
    | |- context [store ?t ?r (env w)] =>
        destruct (store t r (env w)) as [[u | err] e1]
    end.
    + match goal with
      | |- context [storeMeta ?a ?b ?c ?d e1] =>
          destruct (storeMeta a b c d e1) as [result e2]
      end.
      cbn [Server.db_calls fst]. rewrite <- app_assoc, length_map. reflexivity.
    + cbn [Server.db_calls fst]. reflexivity.
  - rewrite map_map. apply map_ext. intros q. reflexivity.
Qed.

